(** * Contact directory (cli_bot_classes.py, cli_bot.py): a shallow embedding

    The Python program keeps an address book of contact records (a name, a
    list of normalized phones, an optional birthday) and computes the
    birthdays to congratulate in the coming week.  The classes of
    [cli_bot_classes.py] and the commands of [cli_bot.py] are embedded as
    functions over explicit state; a raised exception is a value of
    [result]; text printed on the console is returned as a list of lines. *)

From Stdlib Require Import ZArith List Bool Ascii String Lia.
From Stdlib Require Import Sorting.Permutation Sorting.Sorted.
Import ListNotations.

Local Open Scope string_scope.
Local Open Scope Z_scope.

(** ** Exceptions and the error monad *)

(** The exception classes the two modules can raise or let through. *)
Inductive exn : Type :=
| ValueError (msg : string)
| AttributeError (msg : string)
| OverflowError (msg : string)
| TypeError (msg : string)
| KeyError (msg : string)
| IndexError (msg : string).

Inductive result (A : Type) : Type :=
| Ok (a : A)
| Raise (e : exn).
Arguments Ok {A} a.
Arguments Raise {A} e.

Definition bind {A B : Type} (m : result A) (k : A -> result B) : result B :=
  match m with
  | Ok a => k a
  | Raise e => Raise e
  end.

Notation "x <- m ;; k" := (bind m (fun x => k))
  (at level 61, m at next level, right associativity).

(** [try: m except ValueError as e: h e] *)
Definition except_ValueError {A : Type} (m : result A) (h : string -> result A)
  : result A :=
  match m with
  | Raise (ValueError msg) => h msg
  | other => other
  end.

Definition is_Ok {A : Type} (m : result A) : bool :=
  match m with
  | Ok _ => true
  | Raise _ => false
  end.

(** ** The part of [str] and [int] the program uses

    Strings are sequences of bytes here: the model covers ASCII text
    (letters outside ASCII are left alone by [lower], and only ASCII
    digits are known to [int]).  Where a function is searched through
    whatever [str.lower] folds, [str.lower] is a parameter. *)
Module PyStr.

Definition nl : string := String (ascii_of_nat 10) "".

Definition code (c : ascii) : Z := Z.of_nat (nat_of_ascii c).

Definition is_upper (c : ascii) : bool := (65 <=? code c) && (code c <=? 90).
Definition is_digit (c : ascii) : bool := (48 <=? code c) && (code c <=? 57).

(** The blanks of [str.strip] and [str.split]: tab, line feed, vertical
    tab, form feed, carriage return, the four separators 0x1c..0x1f and
    the space. *)
Definition is_space (c : ascii) : bool :=
  ((9 <=? code c) && (code c <=? 13))
  || ((28 <=? code c) && (code c <=? 31))
  || (code c =? 32).

Definition lower_char (c : ascii) : ascii :=
  if is_upper c then ascii_of_nat (nat_of_ascii c + 32) else c.

(** [s.lower()] on ASCII text: the letters A to Z are folded. *)
Fixpoint lower (s : string) : string :=
  match s with
  | EmptyString => EmptyString
  | String c r => String (lower_char c) (lower r)
  end.

(** [s.startswith(p)] *)
Fixpoint startswith (p s : string) : bool :=
  match p, s with
  | EmptyString, _ => true
  | String a p', String b s' => Ascii.eqb a b && startswith p' s'
  | String _ _, EmptyString => false
  end.

(** [needle in hay] *)
Fixpoint contains (needle hay : string) : bool :=
  startswith needle hay
  || match hay with
     | EmptyString => false
     | String _ r => contains needle r
     end.

(** [s.split(sep)] for a separator of one character *)
Fixpoint split (sep : ascii) (s : string) : list string :=
  match s with
  | EmptyString => [EmptyString]
  | String c r =>
      if Ascii.eqb c sep then EmptyString :: split sep r
      else match split sep r with
           | h :: t => String c h :: t
           | [] => [String c EmptyString]
           end
  end.

(** [sep.join(parts)] *)
Definition join (sep : string) (parts : list string) : string :=
  String.concat sep parts.

Fixpoint lstrip (s : string) : string :=
  match s with
  | EmptyString => EmptyString
  | String c r => if is_space c then lstrip r else s
  end.

Fixpoint rstrip (s : string) : string :=
  match s with
  | EmptyString => EmptyString
  | String c r =>
      match rstrip r with
      | EmptyString => if is_space c then EmptyString else String c EmptyString
      | r' => String c r'
      end
  end.

(** The digits of a decimal literal: single underscores are allowed
    between digits only.  Returns the value and the number of digits. *)
Fixpoint parse_digits (s : string) (acc : Z) (count : Z) (after_digit : bool)
  : option (Z * Z) :=
  match s with
  | EmptyString => if after_digit then Some (acc, count) else None
  | String c r =>
      if is_digit c then parse_digits r (10 * acc + (code c - 48)) (count + 1) true
      else if Ascii.eqb c "_" && after_digit then parse_digits r acc count false
      else None
  end.

Fixpoint all_digits (s : string) : bool :=
  match s with
  | EmptyString => true
  | String c r => is_digit c && all_digits r
  end.

(** The number a run of digits writes, continuing from [acc]. *)
Fixpoint digits_value (s : string) (acc : Z) : Z :=
  match s with
  | EmptyString => acc
  | String c r => digits_value r (10 * acc + (code c - 48))
  end.

(** The blanks [int] skips around a number: tab, line feed, vertical tab,
    form feed, carriage return and the space, and not the separators
    0x1c..0x1f. *)
Definition is_int_blank (c : ascii) : bool :=
  ((9 <=? code c) && (code c <=? 13)) || (code c =? 32).

Fixpoint skip_blanks (s : string) : string :=
  match s with
  | EmptyString => EmptyString
  | String c r => if is_int_blank c then skip_blanks r else s
  end.

Fixpoint drop_blanks (s : string) : string :=
  match s with
  | EmptyString => EmptyString
  | String c r =>
      match drop_blanks r with
      | EmptyString =>
          if is_int_blank c then EmptyString else String c EmptyString
      | r' => String c r'
      end
  end.

(** The default of [sys.get_int_max_str_digits()]. *)
Definition MAX_STR_DIGITS : Z := 4300.

Definition invalid_literal : exn :=
  ValueError "invalid literal for int() with base 10".

(** [int(s)] for a string [s].  The messages are cut short: Python adds
    the quoted argument to the first and the number of digits to the
    second. *)
Definition int (s : string) : result Z :=
  let s := drop_blanks (skip_blanks s) in
  let '(negative, body) :=
    match s with
    | String c r =>
        if Ascii.eqb c "-" then (true, r)
        else if Ascii.eqb c "+" then (false, r)
        else (false, s)
    | EmptyString => (false, s)
    end in
  match parse_digits body 0 0 false with
  | None => Raise invalid_literal
  | Some (v, count) =>
      if MAX_STR_DIGITS <? count
      then Raise (ValueError
                    "Exceeds the limit (4300 digits) for integer string conversion")
      else Ok (if negative then - v else v)
  end.

Definition digit_char (d : Z) : ascii := ascii_of_nat (Z.to_nat (48 + d)).

(** [str(n)] for [0 <= n], most significant digit first, with [fuel]
    bounding the number of digits. *)
Fixpoint digits_of (fuel : nat) (n : Z) (acc : string) : string :=
  match fuel with
  | O => acc
  | S fuel' =>
      let acc' := String (digit_char (n mod 10)) acc in
      if n / 10 =? 0 then acc' else digits_of fuel' (n / 10) acc'
  end.

Definition str_of_nonneg (n : Z) : string :=
  digits_of (S (Z.to_nat (Z.log2 n))) n EmptyString.

Fixpoint zeros (k : nat) : string :=
  match k with
  | O => EmptyString
  | S k' => String "0" (zeros k')
  end.

(** [str(n)] *)
Definition str_of_Z (n : Z) : string :=
  if n <? 0 then "-" ++ str_of_nonneg (- n) else str_of_nonneg n.

(** [n] in decimal, padded with zeros on the left to [width] digits, for [0 <= n] *)
Definition zfill (width : nat) (n : Z) : string :=
  let s := str_of_nonneg n in
  zeros (width - String.length s) ++ s.

End PyStr.

(** ** The part of [datetime] the program uses

    Transcribed from CPython's [Lib/_pydatetime.py]; the range check on C
    integers and the messages are those of the C implementation of
    [date.__new__] (CPython 3.12). *)
Module Datetime.

Record date : Type := mkdate { year : Z; month : Z; day : Z }.

Definition MINYEAR : Z := 1.
Definition MAXYEAR : Z := 9999.
Definition _MAXORDINAL : Z := 3652059.

Definition _is_leap (y : Z) : bool :=
  (y mod 4 =? 0) && (negb (y mod 100 =? 0) || (y mod 400 =? 0)).

Definition _days_before_year (y : Z) : Z :=
  let y := y - 1 in
  y * 365 + y / 4 - y / 100 + y / 400.

(** [_DAYS_IN_MONTH[month]], with the table's [-1] at index 0. *)
Definition _DAYS_IN_MONTH (m : Z) : Z :=
  match m with
  | 1 => 31 | 2 => 28 | 3 => 31 | 4 => 30 | 5 => 31 | 6 => 30
  | 7 => 31 | 8 => 31 | 9 => 30 | 10 => 31 | 11 => 30 | 12 => 31
  | _ => -1
  end.

Definition _DAYS_BEFORE_MONTH (m : Z) : Z :=
  match m with
  | 1 => 0 | 2 => 31 | 3 => 59 | 4 => 90 | 5 => 120 | 6 => 151
  | 7 => 181 | 8 => 212 | 9 => 243 | 10 => 273 | 11 => 304 | 12 => 334
  | _ => -1
  end.

Definition _days_in_month (y m : Z) : Z :=
  if (m =? 2) && _is_leap y then 29 else _DAYS_IN_MONTH m.

Definition _days_before_month (y m : Z) : Z :=
  _DAYS_BEFORE_MONTH m + (if (2 <? m) && _is_leap y then 1 else 0).

Definition _ymd2ord (y m d : Z) : Z :=
  _days_before_year y + _days_before_month y m + d.

Definition _DI400Y : Z := 146097.
Definition _DI100Y : Z := 36524.
Definition _DI4Y : Z := 1461.

(** The last lines of [_ord2ymd]: month and day from the day of the year
    [n] (from 0) and [leapyear]. *)
Definition _ord2md (leapyear : bool) (n : Z) : Z * Z :=
  let m := Z.shiftr (n + 50) 5 in
  let preceding :=
    _DAYS_BEFORE_MONTH m + (if (2 <? m) && leapyear then 1 else 0) in
  let '(m, preceding) :=
    if n <? preceding
    then (m - 1,
          preceding
          - (_DAYS_IN_MONTH (m - 1)
             + (if (m - 1 =? 2) && leapyear then 1 else 0)))
    else (m, preceding) in
  (m, n - preceding + 1).

Definition _ord2ymd (n : Z) : date :=
  let n := n - 1 in
  let n400 := n / _DI400Y in
  let n := n mod _DI400Y in
  let y := n400 * 400 + 1 in
  let n100 := n / _DI100Y in
  let n := n mod _DI100Y in
  let n4 := n / _DI4Y in
  let n := n mod _DI4Y in
  let n1 := n / 365 in
  let n := n mod 365 in
  let y := y + n100 * 100 + n4 * 4 + n1 in
  if (n1 =? 4) || (n100 =? 4) then mkdate (y - 1) 12 31
  else
    let leapyear := (n1 =? 3) && (negb (n4 =? 24) || (n100 =? 3)) in
    let '(m, d) := _ord2md leapyear n in
    mkdate y m d.

(** The arguments of [date(year, month, day)] are parsed as C [int]s (an
    integer beyond a C [long] has another message in Python). *)
Definition INT_MAX : Z := 2147483647.
Definition INT_MIN : Z := -2147483648.

Definition as_c_int (v : Z) : result Z :=
  if INT_MAX <? v
  then Raise (OverflowError "signed integer is greater than maximum")
  else if v <? INT_MIN
  then Raise (OverflowError "signed integer is less than minimum")
  else Ok v.

Definition valid_date (d : date) : bool :=
  (MINYEAR <=? year d) && (year d <=? MAXYEAR)
  && (1 <=? month d) && (month d <=? 12)
  && (1 <=? day d) && (day d <=? _days_in_month (year d) (month d)).

(** [date(year, month, day)] *)
Definition date_new (y m d : Z) : result date :=
  y <- as_c_int y ;;
  m <- as_c_int m ;;
  d <- as_c_int d ;;
  if negb ((MINYEAR <=? y) && (y <=? MAXYEAR))
  then Raise (ValueError ("year " ++ PyStr.str_of_Z y ++ " is out of range"))
  else if negb ((1 <=? m) && (m <=? 12))
  then Raise (ValueError "month must be in 1..12")
  else if negb ((1 <=? d) && (d <=? _days_in_month y m))
  then Raise (ValueError "day is out of range for month")
  else Ok (mkdate y m d).

Definition toordinal (d : date) : Z := _ymd2ord (year d) (month d) (day d).

Definition fromordinal (n : Z) : date := _ord2ymd n.

(** [d.weekday()]: Monday is 0, Saturday 5, Sunday 6. *)
Definition weekday (d : date) : Z := (toordinal d + 6) mod 7.

(** [(a - b).days] *)
Definition sub_days (a b : date) : Z := toordinal a - toordinal b.

(** [d + timedelta(days=n)] *)
Definition add_days (d : date) (n : Z) : result date :=
  let o := toordinal d + n in
  if (0 <? o) && (o <=? _MAXORDINAL)
  then Ok (fromordinal o)
  else Raise (OverflowError "result out of range").

End Datetime.


(** ** cli_bot_classes.py *)
Module Classes.
Import Datetime.

(** [class Field]: a label and a value.  [Name] and [Phone] hold a string,
    [Birthday] holds a date once its constructor has succeeded. *)
Record Field (V : Type) : Type := mkField { field_name : string; value : V }.
Arguments mkField {V} field_name value.
Arguments field_name {V} f.
Arguments value {V} f.

Definition Name : Type := Field string.
Definition Phone : Type := Field string.
Definition Birthday : Type := Field date.

(** [Field.__str__] *)
Definition Field_str (f : Field string) : string :=
  field_name f ++ ": " ++ value f.

Definition Name_init (n : string) : Name := mkField "Name" n.

(** Three values out of the lazy [map(int, parts)]: each [int] runs when
    the unpacking asks for its item, and a fourth item is asked for to
    find out whether there are too many. *)
Definition unpack3 (parts : list string) : result (Z * Z * Z) :=
  match parts with
  | a :: b :: c :: rest =>
      a <- PyStr.int a ;;
      b <- PyStr.int b ;;
      c <- PyStr.int c ;;
      match rest with
      | [] => Ok (a, b, c)
      | d :: _ =>
          _ <- PyStr.int d ;;
          Raise (ValueError "too many values to unpack (expected 3)")
      end
  | [a; b] =>
      _ <- PyStr.int a ;;
      _ <- PyStr.int b ;;
      Raise (ValueError "not enough values to unpack (expected 3, got 2)")
  | [a] =>
      _ <- PyStr.int a ;;
      Raise (ValueError "not enough values to unpack (expected 3, got 1)")
  | [] => Raise (ValueError "not enough values to unpack (expected 3, got 0)")
  end.

Definition invalid_date_format : string := "Invalid date format. Use DD.MM.YYYY".

(** [Birthday.__init__] *)
Definition Birthday_init (v : string) : result Birthday :=
  except_ValueError
    (dmy <- unpack3 (PyStr.split "." v) ;;
     let '(d, m, y) := dmy in
     dt <- date_new y m d ;;
     Ok (mkField "Birthday" dt))
    (fun _ => Raise (ValueError invalid_date_format)).

(** [class Record] *)
Record Record_ : Type := mkRecord {
  name : Name;
  phones : list Phone;
  birthday : option Birthday
}.

Definition set_phones (r : Record_) (ps : list Phone) : Record_ :=
  mkRecord (name r) ps (birthday r).

Definition set_birthday (r : Record_) (b : option Birthday) : Record_ :=
  mkRecord (name r) (phones r) b.

(** [[p.value for p in self.phones]] *)
Definition phone_values (r : Record_) : list string := map value (phones r).

(** [x in xs] for a list of strings *)
Definition str_in (x : string) (xs : list string) : bool :=
  existsb (String.eqb x) xs.

(** [Record.__str__] *)
Definition Record_str (r : Record_) : string :=
  "Contact name: " ++ value (name r) ++ ", phones: "
  ++ PyStr.join "; " (phone_values r).

(** [Record.add_birthday]: a [ValueError] of the constructor is printed,
    not raised; the record is returned with the console lines. *)
Definition add_birthday (v : string) (r : Record_)
  : list string * result Record_ :=
  match Birthday_init v with
  | Ok b => ([], Ok (set_birthday r (Some b)))
  | Raise (ValueError msg) => ([msg], Ok r)
  | Raise e => ([], Raise e)
  end.

Section WithNormalizer.

(** [normalize_phone] comes from the module [normalize_phone], which is not
    among the sources: it is a parameter of everything that calls it. *)
Variable normalize_phone : string -> result string.

(** [Phone.__init__] *)
Definition Phone_init (phone : string) : result Phone :=
  v <- normalize_phone phone ;;
  Ok (mkField "Phone" v).

(** [Record.add_phone] *)
Definition add_phone (phone : string) (r : Record_) : result Record_ :=
  if str_in phone (phone_values r)
  then Raise (ValueError ("Phone " ++ phone ++ " already exists"))
  else
    p <- Phone_init phone ;;
    Ok (set_phones r (phones r ++ [p])).

(** The loop of [Record.edit_phone] over [self.phones]: the phones after
    the call and the returned message ([None] when the loop runs out). *)
Fixpoint edit_phone_loop (phone new_phone : string) (ps : list Phone)
  : result (list Phone * option string) :=
  match ps with
  | [] => Ok ([], None)
  | p :: rest =>
      old <- normalize_phone phone ;;
      if String.eqb (value p) old
      then
        new <- normalize_phone new_phone ;;
        Ok (mkField (field_name p) new :: rest,
            Some ("Phone " ++ phone ++ " edited to " ++ new_phone))
      else
        res <- edit_phone_loop phone new_phone rest ;;
        Ok (p :: fst res, snd res)
  end.

(** [Record.edit_phone] *)
Definition edit_phone (phone new_phone : string) (r : Record_)
  : result (Record_ * option string) :=
  res <- edit_phone_loop phone new_phone (phones r) ;;
  Ok (set_phones r (fst res), snd res).

(** [Record.search_phone] *)
Fixpoint search_phone_loop (phone : string) (ps : list Phone)
  : result (option Phone) :=
  match ps with
  | [] => Ok None
  | p :: rest =>
      v <- normalize_phone phone ;;
      if String.eqb (value p) v then Ok (Some p)
      else search_phone_loop phone rest
  end.

Definition search_phone (phone : string) (r : Record_) : result (option Phone) :=
  search_phone_loop phone (phones r).

(** [Record.delete_phone]: [self.phones.remove(p)] takes out the object
    the loop stopped at. *)
Fixpoint delete_phone_loop (phone : string) (ps : list Phone)
  : result (list Phone * option string) :=
  match ps with
  | [] => Ok ([], None)
  | p :: rest =>
      v <- normalize_phone phone ;;
      if String.eqb (value p) v
      then Ok (rest, Some ("Phone " ++ phone ++ " deleted"))
      else
        res <- delete_phone_loop phone rest ;;
        Ok (p :: fst res, snd res)
  end.

Definition delete_phone (phone : string) (r : Record_)
  : result (Record_ * option string) :=
  res <- delete_phone_loop phone (phones r) ;;
  Ok (set_phones r (fst res), snd res).



End WithNormalizer.

(** [class AddressBook(UserDict)]: [self.data] is a dict, which keeps the
    order in which its keys were first inserted. *)
Definition AddressBook : Type := list (string * Record_).

(** [d.get(k)] *)
Fixpoint dict_get {V : Type} (k : string) (d : list (string * V)) : option V :=
  match d with
  | [] => None
  | (k', v) :: rest => if String.eqb k' k then Some v else dict_get k rest
  end.

(** [d[k] = v]: a key that is there keeps its place. *)
Fixpoint dict_set {V : Type} (k : string) (v : V) (d : list (string * V))
  : list (string * V) :=
  match d with
  | [] => [(k, v)]
  | (k', v') :: rest =>
      if String.eqb k' k then (k, v) :: rest else (k', v') :: dict_set k v rest
  end.

(** [del d[k]] for a key that is there *)
Fixpoint dict_del {V : Type} (k : string) (d : list (string * V))
  : list (string * V) :=
  match d with
  | [] => []
  | (k', v') :: rest =>
      if String.eqb k' k then rest else (k', v') :: dict_del k rest
  end.

Definition dict_keys {V : Type} (d : list (string * V)) : list string :=
  map fst d.

Definition dict_values {V : Type} (d : list (string * V)) : list V :=
  map snd d.

(** [AddressBook.add_record] *)
Definition add_record (r : Record_) (book : AddressBook) : result AddressBook :=
  Ok (dict_set (value (name r)) r book).

(** [AddressBook.find] *)
Definition find (n : string) (book : AddressBook) : option Record_ :=
  dict_get n book.

(** [AddressBook.delete_record] *)
Definition delete_record (n : string) (book : AddressBook) : AddressBook :=
  match dict_get n book with
  | Some _ => dict_del n book
  | None => book
  end.

(** [str(d)] for a date: [YYYY-MM-DD] *)
Definition isoformat (d : date) : string :=
  PyStr.zfill 4 (year d) ++ "-" ++ PyStr.zfill 2 (month d) ++ "-"
  ++ PyStr.zfill 2 (day d).

(** One entry of [upcoming_birthdays]:
    [(record.name.value, birthday_this_year, congrats_day)]. *)
Definition entry : Type := string * date * date.

Definition no_value_attribute : exn :=
  AttributeError "'NoneType' object has no attribute 'value'".

(** The body of the loop of [get_upcoming_birthdays] for one record: the
    entries it appends.  [today] is what [date.today()] returns, taken to
    be the same at both calls. *)
Definition upcoming_step (today : date) (record : Record_) : result (list entry) :=
  match birthday record with
  | None => Raise no_value_attribute
  | Some b =>
      birthday_this_year <-
        date_new (year today) (month (value b)) (day (value b)) ;;
      let days_until_birthday := sub_days birthday_this_year today in
      let days_until_birthday :=
        if weekday birthday_this_year =? 5 then days_until_birthday + 2
        else if weekday birthday_this_year =? 6 then days_until_birthday + 1
        else days_until_birthday in
      if (0 <=? days_until_birthday) && (days_until_birthday <=? 7)
      then
        congrats_day <- add_days today days_until_birthday ;;
        Ok [(value (name record), birthday_this_year, congrats_day)]
      else Ok []
  end.

Fixpoint upcoming_loop (today : date) (records : list Record_)
  (upcoming_birthdays : list entry) : result (list entry) :=
  match records with
  | [] => Ok upcoming_birthdays
  | record :: rest =>
      new <- upcoming_step today record ;;
      upcoming_loop today rest (upcoming_birthdays ++ new)
  end.

(** The list [upcoming_birthdays] when the loop is over (lines 189-200). *)
Definition upcoming_birthdays (today : date) (book : AddressBook)
  : result (list entry) :=
  upcoming_loop today (dict_values book) [].

Definition entry_line (e : entry) : string :=
  let '(n, b, _) := e in n ++ " on " ++ isoformat b.

(** [AddressBook.get_upcoming_birthdays]: the string it returns. *)
Definition get_upcoming_birthdays (today : date) (book : AddressBook)
  : result string :=
  l <- upcoming_birthdays today book ;;
  Ok ("Upcoming birthdays: " ++ PyStr.join PyStr.nl (map entry_line l)).

(** [AddressBook.__str__] *)
Definition AddressBook_str (book : AddressBook) : string :=
  PyStr.join PyStr.nl (map Record_str (dict_values book)).

End Classes.

(** ** cli_bot.py *)
Module Cli.
Import Classes.

(** What [json.dump] can be handed here: a value of one of the types the
    encoder knows (dict, list, str, int, bool, None), or an instance of a
    class of the program.  [AddressBook] derives from [UserDict], which is
    not a [dict]. *)
#[local] Unset Elimination Schemes.
Inductive jvalue : Type :=
| JNull
| JBool (b : bool)
| JInt (z : Z)
| JStr (s : string)
| JList (items : list jvalue)
| JDict (items : list (string * jvalue)).
#[local] Set Elimination Schemes.

Inductive pyobj : Type :=
| PyNative (j : jvalue)
| PyAddressBook (book : AddressBook)
| PyRecord (r : Record_).

Definition class_name (o : pyobj) : string :=
  match o with
  | PyNative JNull => "NoneType"
  | PyNative (JBool _) => "bool"
  | PyNative (JInt _) => "int"
  | PyNative (JStr _) => "str"
  | PyNative (JList _) => "list"
  | PyNative (JDict _) => "dict"
  | PyAddressBook _ => "AddressBook"
  | PyRecord _ => "Record"
  end.

(** The file [phonebook.json]: absent, or its text. *)
Definition file : Type := option string.

Section WithEncoder.

(** The text [json.dump(..., indent=4)] writes for a value of a type the
    encoder knows. *)
Variable json_text : jvalue -> string.

(** [json.dump(obj, file, indent=4)]: the text written.  The encoder
    dispatches on the type of [obj] and ends in [JSONEncoder.default],
    which raises, for an object of any other class. *)
Definition json_dump (o : pyobj) : result string :=
  match o with
  | PyNative j => Ok (json_text j)
  | _ =>
      Raise (TypeError ("Object of type " ++ class_name o
                        ++ " is not JSON serializable"))
  end.

(** [save_phonebook]: [open(path, "w")] empties the file before anything
    is written.  Returns the file afterwards and the outcome. *)
Definition save_phonebook (phonebook : AddressBook) (f : file)
  : file * result unit :=
  let opened : file := Some EmptyString in
  match json_dump (PyAddressBook phonebook) with
  | Ok text => (Some text, Ok tt)
  | Raise e => (opened, Raise e)
  end.

End WithEncoder.

Definition invalid_command : string :=
  "Invalid command." ++ PyStr.nl ++ "Available commands:" ++ PyStr.nl
  ++ "hello, add, change, delete, search, show, close, exit".

(** The decorator [input_error] around a function that returns [None]:
    the wrapper returns [None] or the text of the error.  [str(e)] of a
    [KeyError] is the key in quotes. *)
Definition input_error (res : result unit) : result (option string) :=
  match res with
  | Ok _ => Ok None
  | Raise (KeyError k) => Ok (Some ("'" ++ k ++ "'"))
  | Raise (ValueError msg) => Ok (Some msg)
  | Raise (IndexError _) => Ok (Some invalid_command)
  | Raise e => Raise e
  end.

Definition search_line (n : string) (record : Record_) : string :=
  n ++ ": " ++ PyStr.join "; " (phone_values record).

Definition contact_not_found (n : string) : string :=
  "Contact " ++ n ++ " not found.".

Section WithLower.

(** [str.lower], whatever letters it folds: [search_contact] is modelled
    for every such function. *)
Variable lower : string -> string.

(** The condition of the [if] in [search_contact] *)
Definition search_match (pattern n : string) (record : Record_) : bool :=
  PyStr.contains (lower pattern) (lower n)
  || existsb
       (fun phone => PyStr.contains (lower pattern) (lower (value phone)))
       (phones record).

(** The loop of [search_contact]: the lines printed and [found]. *)
Fixpoint search_loop (pattern : string) (items : list (string * Record_))
  (found : bool) : list string * bool :=
  match items with
  | [] => ([], found)
  | (n, record) :: rest =>
      if search_match pattern n record
      then
        let '(out, found') := search_loop pattern rest true in
        (search_line n record :: out, found')
      else search_loop pattern rest found
  end.

(** The function [search_contact] under its decorator *)
Definition search_contact_body (pattern : string) (phonebook : AddressBook)
  : list string * result unit :=
  let '(out, found) := search_loop pattern phonebook false in
  if negb found
  then (out, Raise (ValueError (contact_not_found pattern)))
  else (out, Ok tt).

(** [search_contact] as the module exports it *)
Definition search_contact (pattern : string) (phonebook : AddressBook)
  : list string * result (option string) :=
  let '(out, res) := search_contact_body pattern phonebook in
  (out, input_error res).

End WithLower.

Section WithNormalizer.

Variable normalize_phone : string -> result string.

(** What both branches of [add_contact] do to the record: the record
    afterwards, the lines printed and the outcome. *)
Definition fill_record (phone : string) (b : option string) (record : Record_)
  : Record_ * list string * result unit :=
  match add_phone normalize_phone phone record with
  | Raise e => (record, [], Raise e)
  | Ok record1 =>
      match b with
      | Some (String c s) =>
          match add_birthday (String c s) record1 with
          | (out, Ok record2) => (record2, out, Ok tt)
          | (out, Raise e) => (record1, out, Raise e)
          end
      | _ => (record1, [], Ok tt)
      end
  end.

(** [add_contact] under its decorator, called as [main] calls it (with
    a phone, and a birthday or [None]): the address book afterwards, the
    lines printed and the outcome.  A record that is found is changed in
    place; a new one reaches the book only through [add_record]. *)
Definition add_contact_body (n : string) (phonebook : AddressBook)
  (phone : string) (b : option string)
  : AddressBook * list string * result unit :=
  match find n phonebook with
  | Some record =>
      let '(record', out, res) := fill_record phone b record in
      (dict_set n record' phonebook,
       match res with
       | Ok _ =>
           let line := "Phone number " ++ phone ++ " added to contact " ++ n in
           (out ++ [line])%list
       | Raise _ => out
       end,
       res)
  | None =>
      let '(record', out, res) :=
        fill_record phone b (mkRecord (Name_init n) [] None) in
      match res with
      | Ok _ =>
          match add_record record' phonebook with
          | Ok book =>
              let line := "Contact " ++ n ++ " added with phone number " ++ phone in
              (book, (out ++ [line])%list, Ok tt)
          | Raise e => (phonebook, out, Raise e)
          end
      | Raise e => (phonebook, out, Raise e)
      end
  end.

Definition add_contact (n : string) (phonebook : AddressBook)
  (phone : string) (b : option string)
  : AddressBook * list string * result (option string) :=
  let '(book, out, res) := add_contact_body n phonebook phone b in
  (book, out, input_error res).

End WithNormalizer.

End Cli.

(** ** A phone normalizer to run the program on *)
Module Sample.

Definition is_separator (c : ascii) : bool :=
  Ascii.eqb c " " || Ascii.eqb c "-" || Ascii.eqb c "(" || Ascii.eqb c ")".

Fixpoint strip_separators (s : string) : string :=
  match s with
  | EmptyString => EmptyString
  | String c r =>
      if is_separator c then strip_separators r
      else String c (strip_separators r)
  end.

(** Modelled from the spec: the module [normalize_phone] is not among the
    sources.  The accepted grammar is the one the specification gives as
    its example: an optional leading [+], 10 to 15 digits, and separators
    (blank, dash, parentheses) that are stripped; the canonical form is
    [+] followed by the digits; anything else is rejected with a
    [ValueError]. *)
Definition normalize_phone (raw : string) : result string :=
  let s := strip_separators raw in
  let digits :=
    match s with
    | String "+" r => r
    | _ => s
    end in
  let n := Z.of_nat (String.length digits) in
  if PyStr.all_digits digits && (10 <=? n) && (n <=? 15)
  then Ok ("+" ++ digits)
  else Raise (ValueError "Invalid phone number").

End Sample.

(** ** The scheduler in the words of the specification (section 4.4) *)
Module Spec.
Import Datetime Classes Cli.

(** Step 1: the birthday's month and day in [today]'s year. *)
Definition birthdayThisYear (today b : date) : date :=
  mkdate (year today) (month b) (day b).

(** Step 2: whole days from [today] to [birthdayThisYear]. *)
Definition daysUntil (today b : date) : Z :=
  toordinal (birthdayThisYear today b) - toordinal today.

(** Step 3: two days forward from a Saturday, one from a Sunday. *)
Definition weekendShift (d : date) : Z :=
  if weekday d =? 5 then 2 else if weekday d =? 6 then 1 else 0.

Definition shiftedDaysUntil (today b : date) : Z :=
  daysUntil today b + weekendShift (birthdayThisYear today b).

Definition congratulationDate (today b : date) : date :=
  fromordinal (toordinal today + shiftedDaysUntil today b).

(** Step 4: the window test after the shift. *)
Definition inWindow (n : Z) : bool := (0 <=? n) && (n <=? 7).

(** What one record contributes. *)
Definition scheduled (today : date) (r : Record_) : list entry :=
  match birthday r with
  | Some b =>
      if inWindow (shiftedDaysUntil today (value b))
      then [(value (name r), birthdayThisYear today (value b),
             congratulationDate today (value b))]
      else []
  | None => []
  end.

Definition upcoming (today : date) (records : list Record_) : list entry :=
  flat_map (scheduled today) records.

(** What the text [get_upcoming_birthdays] returns tells of the records:
    the name and birthdayThisYear of those in the window. *)
Definition listed_one (today : date) (r : Record_) : list (string * date) :=
  match birthday r with
  | Some b =>
      if inWindow (shiftedDaysUntil today (value b))
      then [(value (name r), birthdayThisYear today (value b))]
      else []
  | None => []
  end.

Definition listed (today : date) (records : list Record_)
  : list (string * date) :=
  flat_map (listed_one today) records.

(** A record the scheduler can place in [today]'s year: it has a birthday
    whose month and day exist in that year. *)
Definition placeable (today : date) (r : Record_) : bool :=
  match birthday r with
  | Some b => valid_date (birthdayThisYear today (value b))
  | None => false
  end.

(** A text of the form DD.MM.YYYY, from its eight characters. *)
Definition ddmmyyyy (d1 d2 m1 m2 y1 y2 y3 y4 : ascii) : string :=
  String d1 (String d2 (String "."
    (String m1 (String m2 (String "."
      (String y1 (String y2 (String y3 (String y4 EmptyString))))))))).

(** The date such a text writes. *)
Definition date_of_digits (d1 d2 m1 m2 y1 y2 y3 y4 : ascii) : date :=
  mkdate
    (PyStr.digits_value (String y1 (String y2 (String y3 (String y4 EmptyString)))) 0)
    (PyStr.digits_value (String m1 (String m2 EmptyString)) 0)
    (PyStr.digits_value (String d1 (String d2 EmptyString)) 0).

(** [needle] occurs in [hay]. *)
Definition is_substring (needle hay : string) : Prop :=
  exists a b, hay = a ++ needle ++ b.

(** The items of the address book the search condition holds for, in the
    order of the book. *)
Definition matching (lower : string -> string) (pattern : string)
  (book : AddressBook) : list (string * Record_) :=
  filter (fun item => search_match lower pattern (fst item) (snd item)) book.

End Spec.

(** ** Records and address books to run the program on *)
Module Runs.
Import Datetime Classes Cli.

Definition june10 : date := mkdate 2024 6 10.

Definition phone (v : string) : Phone := mkField "Phone" v.
Definition born (d : date) : Birthday := mkField "Birthday" d.

Definition ann : Record_ :=
  mkRecord (Name_init "Ann") [phone "+380501234567"] (Some (born (mkdate 1990 6 15))).
Definition bob : Record_ :=
  mkRecord (Name_init "Bob") [phone "+380671112233"] None.
Definition eve : Record_ :=
  mkRecord (Name_init "Eve") [] (Some (born (mkdate 1995 6 20))).
Definition leo : Record_ :=
  mkRecord (Name_init "Leo") [] (Some (born (mkdate 2000 2 29))).
Definition ann2 : Record_ :=
  mkRecord (Name_init "Ann") [phone "+380991112233"] None.

Definition raw_ann : string := "+38 (050) 123-45-67".
Definition nobody : Record_ := mkRecord (Name_init "Ann") [] None.
Definition two_phones : Record_ :=
  mkRecord (Name_init "Ann") [phone "+380501234567"; phone "+380671112233"] None.

Definition book_of (rs : list Record_) : AddressBook :=
  map (fun r => (value (name r), r)) rs.

End Runs.

(** ** cli_bot.py: the other commands and the command loop *)
Module Commands.
Import Datetime Classes Cli.

(** [a <= b] on strings, as Python compares them, character by character. *)
Definition str_le (a b : string) : bool := String.leb a b.

(** [records.sort(key=lambda x: x.name.value)]: the sort is stable, so a
    record goes in front of the first one whose name is not smaller. *)
Fixpoint insert_by_name (x : Record_) (sorted : list Record_) : list Record_ :=
  match sorted with
  | [] => [x]
  | y :: rest =>
      if str_le (value (name x)) (value (name y)) then x :: y :: rest
      else y :: insert_by_name x rest
  end.

Fixpoint sort_by_name (records : list Record_) : list Record_ :=
  match records with
  | [] => []
  | x :: rest => insert_by_name x (sort_by_name rest)
  end.

(** [show_phonebook] under its decorator: one line per [print(contact)]. *)
Definition show_phonebook_body (phonebook : AddressBook) (sorted_ : bool)
  : list string * result unit :=
  let records := dict_values phonebook in
  let records := if sorted_ then sort_by_name records else records in
  (map Record_str records, Ok tt).

Definition show_phonebook (phonebook : AddressBook) (sorted_ : bool)
  : list string * result (option string) :=
  let '(out, res) := show_phonebook_body phonebook sorted_ in
  (out, input_error res).

(** [delete_contact] under its decorator: the address book afterwards, the
    lines printed and the outcome. *)
Definition delete_contact_body (n : string) (phonebook : AddressBook)
  : AddressBook * list string * result unit :=
  match find n phonebook with
  | None => (phonebook, [], Raise (ValueError (contact_not_found n)))
  | Some _ => (delete_record n phonebook, ["Contact " ++ n ++ " deleted."], Ok tt)
  end.

Definition delete_contact (n : string) (phonebook : AddressBook)
  : AddressBook * list string * result (option string) :=
  let '(book, out, res) := delete_contact_body n phonebook in
  (book, out, input_error res).

(** The command [add_birthday] of cli_bot.py under its decorator. *)
Definition add_birthday_body (n b : string) (phonebook : AddressBook)
  : AddressBook * list string * result unit :=
  match find n phonebook with
  | None => (phonebook, [], Raise (ValueError (contact_not_found n)))
  | Some record =>
      match Classes.add_birthday b record with
      | (out, Ok record') =>
          let line := "Birthday for contact " ++ n ++ " added: " ++ b in
          (dict_set n record' phonebook, (out ++ [line])%list, Ok tt)
      | (out, Raise e) => (phonebook, out, Raise e)
      end
  end.

Definition add_birthday (n b : string) (phonebook : AddressBook)
  : AddressBook * list string * result (option string) :=
  let '(book, out, res) := add_birthday_body n b phonebook in
  (book, out, input_error res).

(** [%A] and [%B] of [strftime] in the C locale. *)
Definition day_name (wd : Z) : string :=
  match wd with
  | 0 => "Monday" | 1 => "Tuesday" | 2 => "Wednesday" | 3 => "Thursday"
  | 4 => "Friday" | 5 => "Saturday" | _ => "Sunday"
  end.

Definition month_name (m : Z) : string :=
  match m with
  | 1 => "January" | 2 => "February" | 3 => "March" | 4 => "April"
  | 5 => "May" | 6 => "June" | 7 => "July" | 8 => "August"
  | 9 => "September" | 10 => "October" | 11 => "November" | _ => "December"
  end.

(** [d.strftime('%A, %B %d')] *)
Definition strftime_A_B_d (d : date) : string :=
  day_name (weekday d) ++ ", " ++ month_name (month d) ++ " "
  ++ PyStr.zfill 2 (day d).

(** [show_birthday] under its decorator *)
Definition show_birthday_body (n : string) (phonebook : AddressBook)
  : list string * result unit :=
  match find n phonebook with
  | None => ([], Raise (ValueError (contact_not_found n)))
  | Some record =>
      match birthday record with
      | Some b =>
          (["Birthday for contact " ++ n ++ ": " ++ strftime_A_B_d (value b)],
           Ok tt)
      | None => (["No birthday found for contact " ++ n], Ok tt)
      end
  end.

Definition show_birthday (n : string) (phonebook : AddressBook)
  : list string * result (option string) :=
  let '(out, res) := show_birthday_body n phonebook in
  (out, input_error res).

(** [birthdays] under its decorator.  [get_upcoming_birthdays] returns a
    string: the [for] loop takes its first character and unpacks it into
    three names. *)
Definition birthdays_body (today : date) (phonebook : AddressBook)
  : list string * result unit :=
  match get_upcoming_birthdays today phonebook with
  | Raise e => ([], Raise e)
  | Ok upcoming =>
      let none_line :=
        match upcoming with
        | EmptyString => ["No upcoming birthdays in the next week."]
        | String _ _ => []
        end in
      let out := (none_line ++ ["Upcoming birthdays in the next week:"])%list in
      match upcoming with
      | EmptyString => (out, Ok tt)
      | String _ _ =>
          (out,
           Raise (ValueError "not enough values to unpack (expected 3, got 1)"))
      end
  end.

Definition birthdays (today : date) (phonebook : AddressBook)
  : list string * result (option string) :=
  let '(out, res) := birthdays_body today phonebook in
  (out, input_error res).

(** [s.split()]: the runs of characters that are not blanks.  The helper
    returns the word that [s] starts in and the words after it. *)
Fixpoint words_from (s : string) : string * list string :=
  match s with
  | EmptyString => (EmptyString, [])
  | String c r =>
      let '(w, ws) := words_from r in
      if PyStr.is_space c
      then (EmptyString, match w with EmptyString => ws | _ => w :: ws end)
      else (String c w, ws)
  end.

Definition split_blank (s : string) : list string :=
  let '(w, ws) := words_from s in
  match w with
  | EmptyString => ws
  | _ => w :: ws
  end.

(** [s.strip()] *)
Definition strip (s : string) : string := PyStr.rstrip (PyStr.lstrip s).

(** A line of blanks only (the empty line is one). *)
Fixpoint all_blank (s : string) : bool :=
  match s with
  | EmptyString => true
  | String c r => PyStr.is_space c && all_blank r
  end.

(** [str(e)] *)
Definition str_of_exn (e : exn) : string :=
  match e with
  | KeyError k => "'" ++ k ++ "'"
  | ValueError msg | AttributeError msg | OverflowError msg
  | TypeError msg | IndexError msg => msg
  end.

(** [args[i]] *)
Definition arg (i : nat) (args : list string) : result string :=
  match nth_error args i with
  | Some a => Ok a
  | None => Raise (IndexError "list index out of range")
  end.

(** What [main] keeps of a call: whether it returned. *)
Definition discard {A : Type} (res : result A) : result unit :=
  match res with
  | Ok _ => Ok tt
  | Raise e => Raise e
  end.

Definition available_commands : string :=
  "Available commands: hello, add, change, delete, search, show, phone, add-birthday, show-birthday, birthdays, close, exit".

(** How a run of [main] ends: it returns after [close] or [exit], an
    exception leaves the loop, or [input] finds no more lines
    ([EOFError]). *)
Inductive ending : Type :=
| Returned
| Crashed (e : exn)
| EndOfInput.

Section WithNormalizer.

Variable normalize_phone : string -> result string.

(** [change_contact] under its decorator *)
Definition change_contact_body (n new_phone : string) (phonebook : AddressBook)
  : AddressBook * list string * result unit :=
  match dict_get n phonebook with
  | None => (phonebook, [], Raise (ValueError (contact_not_found n)))
  | Some record =>
      match normalize_phone new_phone with
      | Raise e => (phonebook, [], Raise e)
      | Ok new_phone =>
          match phones record with
          | [] => (phonebook, [], Raise (IndexError "list index out of range"))
          | first :: _ =>
              match edit_phone normalize_phone (value first) new_phone record with
              | Raise e => (phonebook, [], Raise e)
              | Ok (record', _) =>
                  let line := "Contact " ++ n ++ " updated." ++ PyStr.nl
                              ++ "New phone: " ++ new_phone in
                  (dict_set n record' phonebook, [line], Ok tt)
              end
          end
      end
  end.

Definition change_contact (n new_phone : string) (phonebook : AddressBook)
  : AddressBook * list string * result (option string) :=
  let '(book, out, res) := change_contact_body n new_phone phonebook in
  (book, out, input_error res).

(** [commands[cmd](args)] for the entries of [commands] other than [close]
    and [exit]: the address book afterwards, the lines printed and whether
    the call returned; [None] when [cmd] is not a key of [commands].  The
    loop is modelled on ASCII text: [str.lower] is [PyStr.lower] here. *)
Definition run_command (today : date) (cmd : string) (args : list string)
  (phonebook : AddressBook)
  : option (AddressBook * list string * result unit) :=
  if String.eqb cmd "hello" then
    Some (phonebook, ["How can I help you?"], Ok tt)
  else if String.eqb cmd "add" then
    Some match arg 0 args, arg 1 args with
         | Ok a0, Ok a1 =>
             let '(book, out, res) :=
               add_contact normalize_phone a0 phonebook a1 None in
             (book, out, discard res)
         | Raise e, _ | Ok _, Raise e => (phonebook, [], Raise e)
         end
  else if String.eqb cmd "change" then
    Some match arg 0 args, arg 1 args with
         | Ok a0, Ok a1 =>
             let '(book, out, res) := change_contact a0 a1 phonebook in
             (book, out, discard res)
         | Raise e, _ | Ok _, Raise e => (phonebook, [], Raise e)
         end
  else if String.eqb cmd "delete" then
    Some match arg 0 args with
         | Ok a0 =>
             let '(book, out, res) := delete_contact a0 phonebook in
             (book, out, discard res)
         | Raise e => (phonebook, [], Raise e)
         end
  else if String.eqb cmd "search" || String.eqb cmd "phone" then
    Some match arg 0 args with
         | Ok a0 =>
             let '(out, res) := search_contact PyStr.lower a0 phonebook in
             (phonebook, out, discard res)
         | Raise e => (phonebook, [], Raise e)
         end
  else if String.eqb cmd "show" || String.eqb cmd "all" then
    Some (let '(out, res) := show_phonebook phonebook false in
          (phonebook, out, discard res))
  else if String.eqb cmd "add-birthday" then
    Some match arg 0 args, arg 1 args with
         | Ok a0, Ok a1 =>
             let '(book, out, res) := add_birthday a0 a1 phonebook in
             (book, out, discard res)
         | Raise e, _ | Ok _, Raise e => (phonebook, [], Raise e)
         end
  else if String.eqb cmd "show-birthday" then
    Some match arg 0 args with
         | Ok a0 =>
             let '(out, res) := show_birthday a0 phonebook in
             (phonebook, out, discard res)
         | Raise e => (phonebook, [], Raise e)
         end
  else if String.eqb cmd "birthdays" then
    Some (let '(out, res) := birthdays today phonebook in
          (phonebook, out, discard res))
  else None.

(** The [while True] loop of [main] on the lines [input] will return:
    the address book at the end, the lines printed and the ending.  The
    prompt is not among the lines; [today] is what [date.today()] returns
    throughout. *)
Fixpoint main_loop (today : date) (inputs : list string)
  (phonebook : AddressBook) : AddressBook * list string * ending :=
  match inputs with
  | [] => (phonebook, [], EndOfInput)
  | line :: rest =>
      match split_blank (strip line) with
      | [] => (phonebook, [], Crashed (IndexError "list index out of range"))
      | c :: args =>
          let cmd := PyStr.lower c in
          if String.eqb cmd "close" || String.eqb cmd "exit"
          then (phonebook, ["Good bye!"], Returned)
          else
            match run_command today cmd args phonebook with
            | Some (book, out, res) =>
                let out :=
                  match res with
                  | Ok _ => out
                  | Raise e =>
                      let line := "[ERROR] " ++ str_of_exn e in
                      (out ++ [line])%list
                  end in
                let '(book', out', e) := main_loop today rest book in
                (book', (out ++ out')%list, e)
            | None =>
                let '(book', out', e) := main_loop today rest phonebook in
                (book', "Invalid command." :: available_commands :: out', e)
            end
      end
  end.

(** [main(phonebook)] for a phonebook that is given. *)
Definition main (today : date) (phonebook : AddressBook) (inputs : list string)
  : AddressBook * list string * ending :=
  let '(book, out, e) := main_loop today inputs phonebook in
  (book, "Welcome to the assistant bot!" :: out, e).

End WithNormalizer.

End Commands.

(** ** What the address book and its records keep *)
Module Inv.
Import Classes.

(** The keys of a dict are distinct, and [add_record] files a record
    under its own name. *)
Definition keys_distinct (book : AddressBook) : Prop :=
  NoDup (dict_keys book).

Definition keyed_by_name (book : AddressBook) : Prop :=
  Forall (fun item => fst item = value (name (snd item))) book.

(** The order [show_phonebook] sorts by. *)
Definition name_le (a b : Record_) : Prop :=
  Commands.str_le (value (name a)) (value (name b)) = true.

(** A birthday that is stored is a date of the calendar. *)
Definition birthday_ok (r : Record_) : Prop :=
  match birthday r with
  | Some b => Datetime.valid_date (value b) = true
  | None => True
  end.

(** Every stored phone is a value [normalize_phone] returns. *)
Definition phones_normalized (normalize_phone : string -> result string)
  (r : Record_) : Prop :=
  Forall (fun p => exists raw, normalize_phone raw = Ok (value p)) (phones r).

Definition record_ok (normalize_phone : string -> result string)
  (r : Record_) : Prop :=
  birthday_ok r /\ phones_normalized normalize_phone r.

Definition book_ok (normalize_phone : string -> result string)
  (book : AddressBook) : Prop :=
  keys_distinct book /\ keyed_by_name book
  /\ Forall (fun item => record_ok normalize_phone (snd item)) book.

End Inv.

(** ** The model on concrete inputs *)

Example int_plain : PyStr.int "29" = Ok 29. Proof. reflexivity. Qed.
Example int_blanks_sign : PyStr.int " +07 " = Ok 7. Proof. reflexivity. Qed.
Example int_underscore : PyStr.int "2_021" = Ok 2021. Proof. reflexivity. Qed.
Example int_bad_underscore : PyStr.int "2__021" = Raise PyStr.invalid_literal.
Proof. reflexivity. Qed.
Example int_empty : PyStr.int "" = Raise PyStr.invalid_literal.
Proof. reflexivity. Qed.
Example int_separator :
  PyStr.int (String (ascii_of_nat 28) "15") = Raise PyStr.invalid_literal.
Proof. reflexivity. Qed.
Example int_tab : PyStr.int (String (ascii_of_nat 9) "15") = Ok 15.
Proof. reflexivity. Qed.
Example split_date : PyStr.split "." "29.02.2021" = ["29"; "02"; "2021"].
Proof. reflexivity. Qed.
Example split_empty : PyStr.split "." "" = [""]. Proof. reflexivity. Qed.
Example zfill_4 : PyStr.zfill 4 33 = "0033". Proof. reflexivity. Qed.
Example zfill_2 : PyStr.zfill 2 12 = "12". Proof. reflexivity. Qed.
Example contains_mid : PyStr.contains "li" (PyStr.lower "ALICE") = true.
Proof. reflexivity. Qed.
Example ymd2ord_2024_06_10 : Datetime._ymd2ord 2024 6 10 = 739047.
Proof. reflexivity. Qed.
Example ord2ymd_739047 : Datetime._ord2ymd 739047 = Datetime.mkdate 2024 6 10.
Proof. reflexivity. Qed.
Example weekday_2024_06_10 : Datetime.weekday (Datetime.mkdate 2024 6 10) = 0.
Proof. reflexivity. Qed.
Example ord_max : Datetime._ymd2ord 9999 12 31 = Datetime._MAXORDINAL.
Proof. reflexivity. Qed.
Example ord2ymd_max : Datetime._ord2ymd 3652059 = Datetime.mkdate 9999 12 31.
Proof. reflexivity. Qed.
Example ord2ymd_leap : Datetime._ord2ymd (Datetime._ymd2ord 2024 2 29) = Datetime.mkdate 2024 2 29.
Proof. reflexivity. Qed.
Example ord2ymd_dec31_leap : Datetime._ord2ymd (Datetime._ymd2ord 2000 12 31) = Datetime.mkdate 2000 12 31.
Proof. reflexivity. Qed.

Example birthday_ok :
  Classes.Birthday_init "15.06.1990"
  = Ok (Classes.mkField "Birthday" (Datetime.mkdate 1990 6 15)).
Proof. reflexivity. Qed.

Example birthday_feb29_2021 :
  Classes.Birthday_init "29.02.2021"
  = Raise (ValueError Classes.invalid_date_format).
Proof. reflexivity. Qed.

Example birthday_after_separator :
  Classes.Birthday_init (String (ascii_of_nat 28) "15.06.1990")
  = Raise (ValueError Classes.invalid_date_format).
Proof. reflexivity. Qed.

Example birthday_huge_year :
  Classes.Birthday_init "01.01.99999999999"
  = Raise (OverflowError "signed integer is greater than maximum").
Proof. reflexivity. Qed.

Example scenario_saturday :
  Classes.upcoming_birthdays Runs.june10 (Runs.book_of [Runs.ann])
  = Ok [("Ann", Datetime.mkdate 2024 6 15, Datetime.mkdate 2024 6 17)].
Proof. reflexivity. Qed.

Example scenario_outside_window :
  Classes.upcoming_birthdays Runs.june10 (Runs.book_of [Runs.eve]) = Ok [].
Proof. reflexivity. Qed.

Example scenario_rendered :
  Classes.get_upcoming_birthdays Runs.june10 (Runs.book_of [Runs.ann; Runs.eve])
  = Ok "Upcoming birthdays: Ann on 2024-06-15".
Proof. reflexivity. Qed.

Example normalize_sample :
  Sample.normalize_phone "+38 (050) 123-45-67" = Ok "+380501234567".
Proof. reflexivity. Qed.

(** ** Facts about dates *)
Section DateFacts.
Import Datetime.

Lemma valid_date_spec (d : date) :
  valid_date d = true <->
  1 <= year d <= 9999 /\ 1 <= month d <= 12
  /\ 1 <= day d <= _days_in_month (year d) (month d).
Proof.
  unfold valid_date, MINYEAR, MAXYEAR.
  rewrite !andb_true_iff, !Z.leb_le. lia.
Qed.

Lemma days_in_month_le_31 (y m : Z) : _days_in_month y m <= 31.
Proof.
  unfold _days_in_month.
  destruct ((m =? 2) && _is_leap y); [lia|].
  unfold _DAYS_IN_MONTH.
  destruct m as [|p|p]; try lia.
  do 4 (destruct p as [p|p|]; try lia).
Qed.

Lemma as_c_int_small (v : Z) : INT_MIN <= v <= INT_MAX -> as_c_int v = Ok v.
Proof.
  intros H. unfold as_c_int.
  destruct (Z.ltb_spec INT_MAX v); [lia|].
  destruct (Z.ltb_spec v INT_MIN); [lia|]. reflexivity.
Qed.

Lemma date_new_valid (y m d : Z) :
  valid_date (mkdate y m d) = true -> date_new y m d = Ok (mkdate y m d).
Proof.
  intros H. pose proof H as Hb.
  apply valid_date_spec in H. cbn [year month day] in H.
  pose proof (days_in_month_le_31 y m).
  unfold date_new.
  rewrite !as_c_int_small by (unfold INT_MIN, INT_MAX; lia). cbn [bind].
  unfold valid_date in Hb. cbn [year month day] in Hb.
  rewrite !andb_true_iff in Hb.
  destruct Hb as [[[[[H1 H2] H3] H4] H5] H6].
  rewrite H1, H2, H3, H4, H5, H6. reflexivity.
Qed.

Lemma date_new_Ok (y m d : Z) (dt : date) :
  date_new y m d = Ok dt -> dt = mkdate y m d /\ valid_date dt = true.
Proof.
  unfold date_new, as_c_int.
  destruct (INT_MAX <? y); [discriminate|].
  destruct (y <? INT_MIN); [discriminate|].
  destruct (INT_MAX <? m); [discriminate|].
  destruct (m <? INT_MIN); [discriminate|].
  destruct (INT_MAX <? d); [discriminate|].
  destruct (d <? INT_MIN); [discriminate|].
  cbn [bind].
  destruct ((MINYEAR <=? y) && (y <=? MAXYEAR)) eqn:Hy; [|discriminate].
  destruct ((1 <=? m) && (m <=? 12)) eqn:Hm; [|discriminate].
  destruct ((1 <=? d) && (d <=? _days_in_month y m)) eqn:Hd; [|discriminate].
  cbn [negb]. intros E. injection E as <-. split; [reflexivity|].
  unfold valid_date. cbn [year month day].
  apply andb_true_iff in Hy, Hm, Hd.
  destruct Hy as [-> ->], Hm as [-> ->], Hd as [-> ->]. reflexivity.
Qed.

Lemma days_before_year_bounds (y : Z) :
  1 <= y <= 9999 ->
  0 <= _days_before_year y
  /\ _days_before_year y + (if _is_leap y then 366 else 365) <= _MAXORDINAL.
Proof.
  intros H. unfold _days_before_year, _is_leap, _MAXORDINAL.
  destruct (Z.eqb_spec (y mod 4) 0), (Z.eqb_spec (y mod 100) 0),
    (Z.eqb_spec (y mod 400) 0); cbn [andb orb negb];
    Z.div_mod_to_equations; lia.
Qed.

Ltac month_case :=
  cbv [_DAYS_BEFORE_MONTH _DAYS_IN_MONTH Z.eqb Z.ltb Z.compare Pos.compare
       Pos.compare_cont Pos.eqb andb] in *; lia.

Lemma day_of_year_bounds (y m d : Z) :
  1 <= m <= 12 -> 1 <= d <= _days_in_month y m ->
  1 <= _days_before_month y m + d <= (if _is_leap y then 366 else 365).
Proof.
  intros Hm Hd.
  assert (Hc : m = 1 \/ m = 2 \/ m = 3 \/ m = 4 \/ m = 5 \/ m = 6 \/ m = 7
               \/ m = 8 \/ m = 9 \/ m = 10 \/ m = 11 \/ m = 12) by lia.
  unfold _days_before_month, _days_in_month in *.
  destruct (_is_leap y);
    repeat (destruct Hc as [-> | Hc]; [month_case|]); subst; month_case.
Qed.

Lemma toordinal_bounds (d : date) :
  valid_date d = true -> 1 <= toordinal d <= _MAXORDINAL.
Proof.
  intros H. apply valid_date_spec in H. destruct H as (Hy & Hm & Hd).
  pose proof (days_before_year_bounds (year d) Hy).
  pose proof (day_of_year_bounds (year d) (month d) (day d) Hm Hd).
  unfold toordinal, _ymd2ord. lia.
Qed.

(** The last day [date] can hold is a Friday, so moving a Saturday or a
    Sunday to the Monday after it never leaves the range. *)
Lemma weekend_shift_in_range (d : date) :
  valid_date d = true ->
  1 <= toordinal d + Spec.weekendShift d <= _MAXORDINAL.
Proof.
  intros H. apply toordinal_bounds in H.
  unfold Spec.weekendShift, weekday, _MAXORDINAL in *.
  destruct (Z.eqb_spec ((toordinal d + 6) mod 7) 5);
    [Z.div_mod_to_equations; lia|].
  destruct (Z.eqb_spec ((toordinal d + 6) mod 7) 6);
    Z.div_mod_to_equations; lia.
Qed.

End DateFacts.

(** ** Ordinals and dates are in one-to-one correspondence *)
Section Ordinals.
Import Datetime.

(** The month and day [_ord2md] gives, for every day of a year. *)
Lemma ord2md_table :
  forallb
    (fun k : nat =>
       let n := Z.of_nat k in
       forallb
         (fun leap : bool =>
            let '(m, d) := _ord2md leap n in
            (Z.of_nat 365 + (if leap then 1 else 0) <=? n)
            || ((1 <=? m) && (m <=? 12) && (1 <=? d)
                && (d <=? (if (m =? 2) && leap then 29 else _DAYS_IN_MONTH m))
                && (_DAYS_BEFORE_MONTH m
                    + (if (2 <? m) && leap then 1 else 0) + d =? n + 1)))
         [true; false])
    (seq 0 366) = true.
Proof. vm_compute. reflexivity. Qed.

Lemma ord2md_correct (leap : bool) (n : Z) :
  0 <= n < 365 + (if leap then 1 else 0) ->
  1 <= fst (_ord2md leap n) <= 12
  /\ 1 <= snd (_ord2md leap n)
     <= (if (fst (_ord2md leap n) =? 2) && leap then 29
         else _DAYS_IN_MONTH (fst (_ord2md leap n)))
  /\ _DAYS_BEFORE_MONTH (fst (_ord2md leap n))
     + (if (2 <? fst (_ord2md leap n)) && leap then 1 else 0)
     + snd (_ord2md leap n) = n + 1.
Proof.
  intros Hn.
  assert (Hn' : 0 <= n < 366) by (destruct leap; lia).
  pose proof ord2md_table as T. rewrite forallb_forall in T.
  specialize (T (Z.to_nat n)).
  rewrite Z2Nat.id in T by lia.
  assert (Hin : In (Z.to_nat n) (seq 0 366)) by (apply in_seq; lia).
  specialize (T Hin). cbv zeta in T. rewrite forallb_forall in T.
  specialize (T leap). 
  assert (Hl : In leap [true; false]) by (destruct leap; cbn; tauto).
  specialize (T Hl).
  destruct (_ord2md leap n) as [m d]. cbn [fst snd].
  apply orb_true_iff in T. destruct T as [T|T].
  - apply Z.leb_le in T. destruct leap; lia.
  - rewrite !andb_true_iff, !Z.leb_le, Z.eqb_eq in T. lia.
Qed.

(** The year that starts [400a + 100b + 4c + e] years after year 1. *)
Lemma days_before_year_cycles (a b c e : Z) :
  0 <= a -> 0 <= b <= 3 -> 0 <= c <= 24 -> 0 <= e <= 3 ->
  _days_before_year (400 * a + 100 * b + 4 * c + e + 1)
  = _DI400Y * a + _DI100Y * b + _DI4Y * c + 365 * e.
Proof.
  intros Ha Hb Hc He. unfold _days_before_year, _DI400Y, _DI100Y, _DI4Y.
  Z.div_mod_to_equations. lia.
Qed.

Lemma is_leap_cycles (a b c e : Z) :
  0 <= a -> 0 <= b <= 3 -> 0 <= c <= 24 -> 0 <= e <= 3 ->
  _is_leap (400 * a + 100 * b + 4 * c + e + 1)
  = (e =? 3) && (negb (c =? 24) || (b =? 3)).
Proof.
  intros Ha Hb Hc He. unfold _is_leap.
  destruct (Z.eqb_spec ((400 * a + 100 * b + 4 * c + e + 1) mod 4) 0),
    (Z.eqb_spec ((400 * a + 100 * b + 4 * c + e + 1) mod 100) 0),
    (Z.eqb_spec ((400 * a + 100 * b + 4 * c + e + 1) mod 400) 0),
    (Z.eqb_spec e 3), (Z.eqb_spec c 24), (Z.eqb_spec b 3);
    cbn [andb orb negb]; try reflexivity; exfalso;
    Z.div_mod_to_equations; lia.
Qed.

End Ordinals.

Section OrdinalsRoundTrip.
Import Datetime.

Ltac december :=
  change (12 =? 2) with false; change (2 <? 12) with true;
  change (_DAYS_IN_MONTH 12) with 31; change (_DAYS_BEFORE_MONTH 12) with 334;
  change (3 =? 3) with true; change (24 =? 24) with true;
  cbn [andb orb negb];
  unfold _DI400Y, _DI100Y, _DI4Y in *.

(** [fromordinal] gives a date, and the date of the ordinal it was given. *)
Lemma fromordinal_toordinal (n : Z) :
  1 <= n <= _MAXORDINAL ->
  valid_date (fromordinal n) = true /\ toordinal (fromordinal n) = n.
Proof.
  intros Hn. unfold fromordinal, _ord2ymd. cbv zeta.
  set (a := (n - 1) / _DI400Y).
  set (r400 := (n - 1) mod _DI400Y).
  set (b := r400 / _DI100Y).
  set (r100 := r400 mod _DI100Y).
  set (c := r100 / _DI4Y).
  set (r4 := r100 mod _DI4Y).
  set (e := r4 / 365).
  set (r1 := r4 mod 365).
  assert (F : n - 1 = _DI400Y * a + _DI100Y * b + _DI4Y * c + 365 * e + r1
              /\ 0 <= a /\ 0 <= b <= 4 /\ 0 <= c <= 24 /\ 0 <= e <= 4
              /\ 0 <= r1 < 365
              /\ (b = 4 -> c = 0 /\ e = 0 /\ r1 = 0)
              /\ (e = 4 -> r1 = 0 /\ c <= 23)
              /\ 400 * a + 100 * b + 4 * c + e + 1 <= 9999 + (if (e =? 4) || (b =? 4) then 1 else 0)).
  { subst a r400 b r100 c r4 e r1.
    unfold _DI400Y, _DI100Y, _DI4Y, _MAXORDINAL in *.
    destruct (Z.eqb_spec ((((n - 1) mod 146097) mod 36524) mod 1461 / 365) 4),
      (Z.eqb_spec ((n - 1) mod 146097 / 36524) 4); cbn [orb];
      Z.div_mod_to_equations; lia. }
  destruct F as (Fn & Ha & Hb & Hc & He & Hr & Hb4 & He4 & Hy).
  clearbody a r400 b r100 c r4 e r1.
  destruct (Z.eqb_spec e 4) as [E4|E4]; cbn [orb] in *.
  - (* last day of a four-year cycle *)
    destruct (He4 E4) as [-> Hc']. subst e.
    replace (a * 400 + 1 + b * 100 + c * 4 + 4 - 1)
      with (400 * a + 100 * b + 4 * c + 3 + 1) by lia.
    assert (Hb' : 0 <= b <= 3) by lia.
    assert (Hc3 : 0 <= c <= 24) by lia.
    assert (H3 : 0 <= 3 <= 3) by lia.
    unfold valid_date, toordinal, _ymd2ord, _days_in_month, _days_before_month.
    cbn [year month day].
    rewrite (days_before_year_cycles a b c 3 Ha Hb' Hc3 H3).
    rewrite (is_leap_cycles a b c 3 Ha Hb' Hc3 H3).
    destruct (Z.eqb_spec c 24); [lia|].
    december. split; [|lia].
    rewrite !andb_true_iff, !Z.leb_le. unfold MINYEAR, MAXYEAR. lia.
  - destruct (Z.eqb_spec b 4) as [B4|B4]; cbn [orb] in *.
    + (* last day of a four-hundred-year cycle *)
      destruct (Hb4 B4) as (-> & -> & ->). subst b.
      replace (a * 400 + 1 + 4 * 100 + 0 * 4 + 0 - 1)
        with (400 * a + 100 * 3 + 4 * 24 + 3 + 1) by lia.
      assert (H3 : 0 <= 3 <= 3) by lia.
      assert (H24 : 0 <= 24 <= 24) by lia.
      unfold valid_date, toordinal, _ymd2ord, _days_in_month, _days_before_month.
      cbn [year month day].
      rewrite (days_before_year_cycles a 3 24 3 Ha H3 H24 H3).
      rewrite (is_leap_cycles a 3 24 3 Ha H3 H24 H3).
      december. split; [|lia].
      rewrite !andb_true_iff, !Z.leb_le. unfold MINYEAR, MAXYEAR. lia.
    + assert (Hb' : 0 <= b <= 3) by lia.
      assert (He' : 0 <= e <= 3) by lia.
      replace (a * 400 + 1 + b * 100 + c * 4 + e)
        with (400 * a + 100 * b + 4 * c + e + 1) by lia.
      pose proof (is_leap_cycles a b c e Ha Hb' Hc He') as L.
      set (leap := (e =? 3) && (negb (c =? 24) || (b =? 3))) in *.
      assert (Hr' : 0 <= r1 < 365 + (if leap then 1 else 0))
        by (destruct leap; lia).
      pose proof (ord2md_correct leap r1 Hr') as (Hm & Hd & Hsum).
      destruct (_ord2md leap r1) as [m d]. cbn [fst snd] in *.
      unfold valid_date, toordinal, _ymd2ord, _days_in_month, _days_before_month.
      cbn [year month day].
      rewrite (days_before_year_cycles a b c e Ha Hb' Hc He'), L.
      split; [|lia].
      rewrite !andb_true_iff, !Z.leb_le. unfold MINYEAR, MAXYEAR. lia.
Qed.

(** Adding days moves the ordinal by as many. *)
Lemma add_days_toordinal (d d' : date) (n : Z) :
  add_days d n = Ok d' ->
  valid_date d' = true /\ toordinal d' = toordinal d + n.
Proof.
  unfold add_days.
  destruct (Z.ltb_spec 0 (toordinal d + n)); [|discriminate].
  destruct (Z.leb_spec (toordinal d + n) _MAXORDINAL); [|discriminate].
  cbn [andb]. intros E. injection E as <-.
  apply fromordinal_toordinal. lia.
Qed.

End OrdinalsRoundTrip.

(** ** The birthday scheduler *)
Section Scheduler.
Import Datetime Classes.

(** The two [if]s of lines 194-197 add the weekend shift. *)
Lemma shift_branches (d : date) (n : Z) :
  (if weekday d =? 5 then n + 2 else if weekday d =? 6 then n + 1 else n)
  = n + Spec.weekendShift d.
Proof.
  unfold Spec.weekendShift.
  destruct (weekday d =? 5); [reflexivity|].
  destruct (weekday d =? 6); lia.
Qed.

Lemma upcoming_step_placeable (today : date) (r : Record_) :
  Spec.placeable today r = true ->
  upcoming_step today r = Ok (Spec.scheduled today r).
Proof.
  unfold Spec.placeable, upcoming_step, Spec.scheduled.
  destruct (birthday r) as [b|]; [|discriminate].
  intros Hv.
  unfold Spec.birthdayThisYear in *.
  rewrite (date_new_valid _ _ _ Hv). cbn [bind].
  rewrite shift_branches.
  set (bty := mkdate (year today) (month (value b)) (day (value b))) in *.
  change (sub_days bty today + Spec.weekendShift bty)
    with (Spec.shiftedDaysUntil today (value b)).
  unfold Spec.inWindow.
  destruct ((0 <=? Spec.shiftedDaysUntil today (value b))
            && (Spec.shiftedDaysUntil today (value b) <=? 7)); [|reflexivity].
  unfold add_days, Spec.congratulationDate.
  pose proof (weekend_shift_in_range bty Hv) as Hr.
  assert (E : toordinal today + Spec.shiftedDaysUntil today (value b)
              = toordinal bty + Spec.weekendShift bty).
  { unfold Spec.shiftedDaysUntil, Spec.daysUntil, Spec.birthdayThisYear.
    fold bty. lia. }
  rewrite E.
  destruct (Z.ltb_spec 0 (toordinal bty + Spec.weekendShift bty)); [|lia].
  destruct (Z.leb_spec (toordinal bty + Spec.weekendShift bty) _MAXORDINAL);
    [|lia].
  reflexivity.
Qed.

Lemma upcoming_loop_placeable (today : date) (rs : list Record_) :
  forall acc,
    forallb (Spec.placeable today) rs = true ->
    upcoming_loop today rs acc = Ok (acc ++ Spec.upcoming today rs)%list.
Proof.
  induction rs as [|r rs IH]; intros acc H; cbn [upcoming_loop].
  - cbn. now rewrite app_nil_r.
  - cbn [forallb] in H. apply andb_true_iff in H. destruct H as [Hr Hrs].
    rewrite (upcoming_step_placeable _ _ Hr). cbn [bind].
    rewrite IH by assumption.
    unfold Spec.upcoming. cbn [flat_map]. now rewrite app_assoc.
Qed.

(** A record without a birthday stops the loop. *)
Lemma upcoming_loop_no_birthday (today : date) (r : Record_)
  (rs : list Record_) (acc : list entry) :
  birthday r = None ->
  upcoming_loop today (r :: rs) acc = Raise no_value_attribute.
Proof.
  intros H. cbn [upcoming_loop]. unfold upcoming_step. now rewrite H.
Qed.

(** The entry of a record is in the list exactly when the shifted number
    of days is in the window. *)
Lemma scheduled_in_upcoming (today : date) (rs : list Record_)
  (r : Record_) (b : Birthday) :
  In r rs -> birthday r = Some b ->
  In (value (name r), Spec.birthdayThisYear today (value b),
      Spec.congratulationDate today (value b)) (Spec.upcoming today rs)
  <-> 0 <= Spec.shiftedDaysUntil today (value b) <= 7.
Proof.
  intros Hin Hb. unfold Spec.upcoming. rewrite in_flat_map. split.
  - intros (r' & _ & Hin').
    unfold Spec.scheduled in Hin'.
    destruct (birthday r') as [b'|]; [|contradiction].
    destruct (Spec.inWindow (Spec.shiftedDaysUntil today (value b'))) eqn:W;
      [|contradiction].
    destruct Hin' as [E|[]].
    assert (E1 : Spec.birthdayThisYear today (value b')
                 = Spec.birthdayThisYear today (value b)) by congruence.
    unfold Spec.inWindow in W. apply andb_true_iff in W.
    rewrite !Z.leb_le in W.
    unfold Spec.shiftedDaysUntil, Spec.daysUntil in *.
    rewrite <- E1. exact W.
  - intros W. exists r. split; [assumption|].
    unfold Spec.scheduled. rewrite Hb.
    unfold Spec.inWindow.
    destruct (Z.leb_spec 0 (Spec.shiftedDaysUntil today (value b))); [|lia].
    destruct (Z.leb_spec (Spec.shiftedDaysUntil today (value b)) 7); [|lia].
    now left.
Qed.


(** The day to congratulate is a date, the shifted number of days after
    today. *)
Lemma congratulation_date_ordinal (today b : date) :
  valid_date (Spec.birthdayThisYear today b) = true ->
  valid_date (Spec.congratulationDate today b) = true
  /\ toordinal (Spec.congratulationDate today b)
     = toordinal today + Spec.shiftedDaysUntil today b.
Proof.
  intros Hv. pose proof (weekend_shift_in_range _ Hv) as Hr.
  unfold Spec.congratulationDate. apply fromordinal_toordinal.
  unfold Spec.shiftedDaysUntil, Spec.daysUntil. lia.
Qed.

Lemma placeable_in (today : date) (rs : list Record_) (r : Record_)
  (b : Birthday) :
  forallb (Spec.placeable today) rs = true ->
  In r rs -> birthday r = Some b ->
  valid_date (Spec.birthdayThisYear today (value b)) = true.
Proof.
  intros H Hin Hb. rewrite forallb_forall in H. specialize (H r Hin).
  unfold Spec.placeable in H. now rewrite Hb in H.
Qed.

(** The loop stops with an error as soon as a record has no birthday, so
    it never returns on a list that holds one. *)
Lemma upcoming_loop_missing_birthday (today : date) (rs : list Record_)
  (r : Record_) :
  In r rs -> birthday r = None ->
  forall acc, is_Ok (upcoming_loop today rs acc) = false.
Proof.
  intros Hin Hb. induction rs as [|r' rs IH]; [contradiction|].
  intros acc. cbn [upcoming_loop].
  destruct Hin as [->|Hin].
  - unfold upcoming_step. now rewrite Hb.
  - destruct (upcoming_step today r') as [new|e]; [|reflexivity].
    cbn [bind]. now apply IH.
Qed.

End Scheduler.

Section SchedulerClaims.
Import Datetime Classes Runs.

(** An empty address book gives the bare heading, not an error. *)
Lemma get_upcoming_birthdays_empty (today : date) :
  get_upcoming_birthdays today [] = Ok "Upcoming birthdays: ".
Proof. reflexivity. Qed.

(** When every record can be placed, the call returns. *)
Lemma get_upcoming_birthdays_returns (today : date) (book : AddressBook) :
  forallb (Spec.placeable today) (dict_values book) = true ->
  is_Ok (get_upcoming_birthdays today book) = true.
Proof.
  intros H. unfold get_upcoming_birthdays, upcoming_birthdays.
  now rewrite (upcoming_loop_placeable _ _ [] H).
Qed.

(** C1 (the code fails here): [get_upcoming_birthdays] does not skip a
    record that has no birthday.  Line 192 reads [record.birthday.value]
    of every record, so an address book whose first record has no birthday
    makes the call raise [AttributeError], whatever the date and whatever
    the other records are. *)
Theorem get_upcoming_birthdays_no_birthday
  (today : date) (k : string) (n : Name) (ps : list Phone)
  (rest : AddressBook) :
  get_upcoming_birthdays today ((k, mkRecord n ps None) :: rest)
  = Raise no_value_attribute.
Proof. reflexivity. Qed.

(** Wherever the record without a birthday stands in the address book,
    the call does not return. *)
Lemma get_upcoming_birthdays_missing_birthday
  (today : date) (book : AddressBook) (r : Record_) :
  In r (dict_values book) -> birthday r = None ->
  is_Ok (get_upcoming_birthdays today book) = false.
Proof.
  intros Hin Hb. unfold get_upcoming_birthdays, upcoming_birthdays.
  pose proof (upcoming_loop_missing_birthday today _ r Hin Hb []) as H.
  now destruct (upcoming_loop today (dict_values book) []).
Qed.

(** The same on the address book that holds only Bob, who has phones and
    no birthday. *)
Lemma get_upcoming_birthdays_bob :
  get_upcoming_birthdays june10 (book_of [bob]) = Raise no_value_attribute.
Proof. reflexivity. Qed.

(** A birthday on 29 February cannot be placed in a year that is not a
    leap year: [date(today.year, 2, 29)] raises. *)
Lemma get_upcoming_birthdays_feb29 :
  get_upcoming_birthdays (mkdate 2023 3 1) (book_of [leo])
  = Raise (ValueError "day is out of range for month").
Proof. reflexivity. Qed.

(** The body of the loop, record by record: for every record with a
    birthday whose month and day exist in today's year, and every date
    today: with daysUntil = birthdayThisYear - today, plus 2 when
    birthdayThisYear is a Saturday, plus 1 when it is a Sunday, the loop
    body of [get_upcoming_birthdays] appends the record's entry (name,
    birthdayThisYear, today + daysUntil) exactly when 0 <= daysUntil <= 7
    after the shift, and nothing otherwise; the day to congratulate is a
    date, daysUntil days after today; and in every address book the loop
    gets through, the list it builds holds the record's entry exactly
    when the shifted daysUntil is in that window. *)
Theorem upcoming_birthdays_window (today : date) (r : Record_) (b : Birthday) :
  birthday r = Some b ->
  valid_date (Spec.birthdayThisYear today (value b)) = true ->
  upcoming_step today r
  = Ok (if (0 <=? Spec.daysUntil today (value b)
                  + Spec.weekendShift (Spec.birthdayThisYear today (value b)))
           && (Spec.daysUntil today (value b)
               + Spec.weekendShift (Spec.birthdayThisYear today (value b)) <=? 7)
        then [(value (name r), Spec.birthdayThisYear today (value b),
               Spec.congratulationDate today (value b))]
        else [])
  /\ valid_date (Spec.congratulationDate today (value b)) = true
  /\ toordinal (Spec.congratulationDate today (value b))
     = toordinal today
       + (Spec.daysUntil today (value b)
          + Spec.weekendShift (Spec.birthdayThisYear today (value b)))
  /\ forall book : AddressBook,
       In r (dict_values book) ->
       forallb (Spec.placeable today) (dict_values book) = true ->
       upcoming_birthdays today book
       = Ok (Spec.upcoming today (dict_values book))
       /\ (In (value (name r), Spec.birthdayThisYear today (value b),
               Spec.congratulationDate today (value b))
              (Spec.upcoming today (dict_values book))
           <-> 0 <= Spec.daysUntil today (value b)
                    + Spec.weekendShift (Spec.birthdayThisYear today (value b))
               <= 7).
Proof.
  intros Hb Hv. split; [|split; [|split]].
  - rewrite upcoming_step_placeable
      by (unfold Spec.placeable; now rewrite Hb).
    unfold Spec.scheduled. now rewrite Hb.
  - now apply congratulation_date_ordinal.
  - now apply congratulation_date_ordinal.
  - intros book Hin H. split.
    + unfold upcoming_birthdays.
      now rewrite (upcoming_loop_placeable _ _ [] H).
    + now apply scheduled_in_upcoming.
Qed.

(** The scenario of the specification: Monday 2024-06-10, a birthday on
    Saturday 15 June, congratulated on Monday 17 June. *)
Lemma upcoming_birthdays_window_witness :
  upcoming_step june10 ann
  = Ok [("Ann", mkdate 2024 6 15, mkdate 2024 6 17)]
  /\ toordinal (mkdate 2024 6 17) = toordinal june10 + (5 + 2)
  /\ upcoming_birthdays june10 (book_of [eve; ann])
     = Ok [("Ann", mkdate 2024 6 15, mkdate 2024 6 17)].
Proof.
  destruct (upcoming_birthdays_window june10 ann (born (mkdate 1990 6 15))
              eq_refl eq_refl) as (H1 & _ & H3 & H4).
  split; [exact H1|]. split; [exact H3|].
  exact (proj1 (H4 (book_of [eve; ann]) (or_intror (or_introl eq_refl)) eq_refl)).
Defined.

Lemma listed_upcoming (today : date) (rs : list Record_) :
  Spec.listed today rs
  = map (fun e : entry => (fst (fst e), snd (fst e))) (Spec.upcoming today rs).
Proof.
  unfold Spec.listed, Spec.upcoming.
  induction rs as [|r rs IH]; cbn [flat_map map]; [reflexivity|].
  rewrite map_app, IH. f_equal.
  unfold Spec.listed_one, Spec.scheduled.
  destruct (birthday r); [|reflexivity].
  now destruct (Spec.inWindow _).
Qed.

Lemma listed_in (today : date) (rs : list Record_) (r : Record_) (b : Birthday) :
  In r rs -> birthday r = Some b ->
  In (value (name r), Spec.birthdayThisYear today (value b))
     (Spec.listed today rs)
  <-> 0 <= Spec.daysUntil today (value b)
           + Spec.weekendShift (Spec.birthdayThisYear today (value b)) <= 7.
Proof.
  intros Hin Hb. unfold Spec.listed. rewrite in_flat_map. split.
  - intros (r' & _ & Hin'). unfold Spec.listed_one in Hin'.
    destruct (birthday r') as [b'|]; [|contradiction].
    destruct (Spec.inWindow (Spec.shiftedDaysUntil today (value b'))) eqn:W;
      [|contradiction].
    destruct Hin' as [E|[]].
    assert (E1 : Spec.birthdayThisYear today (value b')
                 = Spec.birthdayThisYear today (value b)) by congruence.
    unfold Spec.inWindow in W. apply andb_true_iff in W.
    rewrite !Z.leb_le in W.
    unfold Spec.shiftedDaysUntil, Spec.daysUntil in *.
    rewrite <- E1. exact W.
  - intros W. exists r. split; [assumption|].
    unfold Spec.listed_one. rewrite Hb.
    unfold Spec.inWindow, Spec.shiftedDaysUntil.
    destruct (Z.leb_spec 0 (Spec.daysUntil today (value b)
                + Spec.weekendShift (Spec.birthdayThisYear today (value b))));
      [|lia].
    destruct (Z.leb_spec (Spec.daysUntil today (value b)
                + Spec.weekendShift (Spec.birthdayThisYear today (value b))) 7);
      [|lia].
    now left.
Qed.

(** C2 (the code fails here): [get_upcoming_birthdays] does not return the
    entries it builds.  For an address book whose records all have a
    birthday that exists in today's year, the loop builds, in order, the
    entry (name, birthdayThisYear, today + daysUntil) of every record
    whose daysUntil, shifted by 2 from a Saturday and by 1 from a Sunday,
    is from 0 to 7; but what line 201 returns is the text "Upcoming
    birthdays: " followed by one line "name on birthdayThisYear" for each
    of these records: a record is in the text exactly when its shifted
    daysUntil is in the window, and the day to congratulate is not in
    it. *)
Theorem get_upcoming_birthdays_text (today : date) (book : AddressBook) :
  forallb (Spec.placeable today) (dict_values book) = true ->
  upcoming_birthdays today book = Ok (Spec.upcoming today (dict_values book))
  /\ get_upcoming_birthdays today book
     = Ok ("Upcoming birthdays: "
           ++ PyStr.join PyStr.nl
                (map (fun item => fst item ++ " on " ++ isoformat (snd item))
                   (Spec.listed today (dict_values book))))
  /\ forall (r : Record_) (b : Birthday),
       In r (dict_values book) -> birthday r = Some b ->
       (In (value (name r), Spec.birthdayThisYear today (value b))
           (Spec.listed today (dict_values book))
        <-> 0 <= Spec.daysUntil today (value b)
                 + Spec.weekendShift (Spec.birthdayThisYear today (value b))
            <= 7).
Proof.
  intros H.
  assert (U : upcoming_birthdays today book
              = Ok (Spec.upcoming today (dict_values book))).
  { unfold upcoming_birthdays. now rewrite (upcoming_loop_placeable _ _ [] H). }
  split; [exact U|]. split.
  - unfold get_upcoming_birthdays. rewrite U. cbn [bind].
    rewrite listed_upcoming, map_map. do 3 f_equal.
    apply map_ext. intros [[n b] c]. reflexivity.
  - intros r b Hin Hb. now apply listed_in.
Qed.

(** The scenario of the specification: on Monday 2024-06-10 the loop has
    Ann's entry with 17 June as the day to congratulate, and the text
    that is returned names Ann and 15 June only. *)
Lemma get_upcoming_birthdays_text_witness :
  upcoming_birthdays june10 (book_of [ann; eve])
  = Ok [("Ann", mkdate 2024 6 15, mkdate 2024 6 17)]
  /\ get_upcoming_birthdays june10 (book_of [ann; eve])
     = Ok "Upcoming birthdays: Ann on 2024-06-15"
  /\ PyStr.contains (isoformat (mkdate 2024 6 17))
       "Upcoming birthdays: Ann on 2024-06-15" = false.
Proof.
  destruct (get_upcoming_birthdays_text june10 (book_of [ann; eve]) eq_refl)
    as (H1 & H2 & _).
  split; [exact H1|]. split; [exact H2 | reflexivity].
Defined.




End SchedulerClaims.

(** ** Phones of a record *)
Section Phones.
Import Classes.

Variable normalize_phone : string -> result string.

Lemma str_in_In (x : string) (xs : list string) :
  str_in x xs = true <-> In x xs.
Proof.
  unfold str_in. rewrite existsb_exists. split.
  - intros (y & Hy & E). apply String.eqb_eq in E. now subst.
  - intros H. exists x. split; [assumption | apply String.eqb_refl].
Qed.

Lemma str_in_app (x : string) (xs ys : list string) :
  str_in x (xs ++ ys) = str_in x xs || str_in x ys.
Proof. unfold str_in. apply existsb_app. Qed.

Lemma phone_values_set_phones (r : Record_) (ps : list Phone) :
  phone_values (set_phones r ps) = map value ps.
Proof. reflexivity. Qed.

(** What [add_phone] does when it does not raise the duplicate error. *)
Lemma add_phone_fresh (x v : string) (r : Record_) :
  normalize_phone x = Ok v ->
  str_in x (phone_values r) = false ->
  add_phone normalize_phone x r
  = Ok (set_phones r (phones r ++ [mkField "Phone" v])).
Proof.
  intros Hn Hx. unfold add_phone, Phone_init. now rewrite Hx, Hn.
Qed.

Lemma add_phone_Ok (x v : string) (r r' : Record_) :
  normalize_phone x = Ok v ->
  add_phone normalize_phone x r = Ok r' ->
  r' = set_phones r (phones r ++ [mkField "Phone" v]).
Proof.
  intros Hn. unfold add_phone, Phone_init.
  destruct (str_in x (phone_values r)); [discriminate|].
  rewrite Hn. cbn [bind]. intros E. now injection E as <-.
Qed.

(** [search_phone] returns the first phone whose value is the normalized
    argument. *)
Lemma search_phone_loop_finds (x v : string) (ps : list Phone) :
  normalize_phone x = Ok v ->
  In v (map value ps) ->
  exists p, search_phone_loop normalize_phone x ps = Ok (Some p)
            /\ value p = v /\ In p ps.
Proof.
  intros Hn. induction ps as [|p ps IH]; intros Hin; [contradiction|].
  cbn [search_phone_loop]. rewrite Hn. cbn [bind].
  destruct (String.eqb_spec (value p) v) as [E|E].
  - exists p. repeat split; [assumption | now left].
  - destruct Hin as [Hin|Hin]; [contradiction|].
    destruct (IH Hin) as (q & Hq & Hv & Hq').
    exists q. repeat split; [assumption | assumption | now right].
Qed.

Lemma search_phone_loop_absent (x v : string) (ps : list Phone) :
  normalize_phone x = Ok v ->
  ~ In v (map value ps) ->
  search_phone_loop normalize_phone x ps = Ok None.
Proof.
  intros Hn. induction ps as [|p ps IH]; intros Hin; [reflexivity|].
  cbn [search_phone_loop]. rewrite Hn. cbn [bind].
  destruct (String.eqb_spec (value p) v) as [E|E].
  - exfalso. apply Hin. now left.
  - apply IH. intros H. apply Hin. now right.
Qed.

(** [edit_phone] rewrites the first phone whose value is the normalized
    old number, and looks at nothing else. *)
Lemma edit_phone_loop_found (old new vo vn : string) (ps : list Phone) :
  normalize_phone old = Ok vo ->
  normalize_phone new = Ok vn ->
  In vo (map value ps) ->
  exists l1 p l2,
    ps = (l1 ++ p :: l2)%list
    /\ value p = vo
    /\ ~ In vo (map value l1)
    /\ edit_phone_loop normalize_phone old new ps
       = Ok ((l1 ++ mkField (field_name p) vn :: l2)%list,
             Some ("Phone " ++ old ++ " edited to " ++ new)).
Proof.
  intros Ho Hn. induction ps as [|p ps IH]; intros Hin; [contradiction|].
  cbn [edit_phone_loop]. rewrite Ho. cbn [bind].
  destruct (String.eqb_spec (value p) vo) as [E|E].
  - exists [], p, ps. rewrite Hn. cbn. repeat split; auto.
  - destruct Hin as [Hin|Hin]; [contradiction|].
    destruct (IH Hin) as (l1 & q & l2 & -> & Hq & Hl1 & Hloop).
    exists (p :: l1), q, l2. rewrite Hloop. cbn.
    repeat split; auto.
    intros [H|H]; [contradiction | now apply Hl1].
Qed.

Lemma edit_phone_loop_absent (old new vo : string) (ps : list Phone) :
  normalize_phone old = Ok vo ->
  ~ In vo (map value ps) ->
  edit_phone_loop normalize_phone old new ps = Ok (ps, None).
Proof.
  intros Ho. induction ps as [|p ps IH]; intros Hin; [reflexivity|].
  cbn [edit_phone_loop]. rewrite Ho. cbn [bind].
  destruct (String.eqb_spec (value p) vo) as [E|E].
  - exfalso. apply Hin. now left.
  - rewrite IH; [reflexivity|]. intros H. apply Hin. now right.
Qed.

End Phones.

Section PhoneClaims.
Import Classes.

Variable normalize_phone : string -> result string.

(** C5 (the code fails here): [add_phone] looks for the raw argument among
    the stored values, which are normalized.  For a raw [x] that is not in
    canonical form already, the first [add_phone x] stores the
    normalization of [x], and the second [add_phone x] does not raise: it
    stores the same value again. *)
Theorem add_phone_same_raw_twice (x v : string) (r : Record_) :
  normalize_phone x = Ok v ->
  x <> v ->
  str_in x (phone_values r) = false ->
  exists r1 r2 : Record_,
    add_phone normalize_phone x r = Ok r1
    /\ In v (phone_values r1)
    /\ add_phone normalize_phone x r1 = Ok r2
    /\ phone_values r2 = (phone_values r ++ [v; v])%list.
Proof.
  intros Hn Hne Hx.
  set (r1 := set_phones r (phones r ++ [mkField "Phone" v])).
  assert (Hv1 : phone_values r1 = (phone_values r ++ [v])%list).
  { unfold r1. rewrite phone_values_set_phones, map_app. reflexivity. }
  assert (Hx1 : str_in x (phone_values r1) = false).
  { rewrite Hv1, str_in_app, Hx. cbn.
    destruct (String.eqb_spec x v); [contradiction | reflexivity]. }
  exists r1, (set_phones r1 (phones r1 ++ [mkField "Phone" v])).
  split; [now apply add_phone_fresh|].
  split; [rewrite Hv1; apply in_or_app; right; now left|].
  split; [now apply add_phone_fresh|].
  rewrite phone_values_set_phones, map_app.
  change (map value (phones r1)) with (phone_values r1).
  rewrite Hv1, <- app_assoc. reflexivity.
Qed.

(** When the raw argument is itself among the stored values, the call
    does fail. *)
Lemma add_phone_duplicate_raw (x : string) (r : Record_) :
  In x (phone_values r) ->
  add_phone normalize_phone x r
  = Raise (ValueError ("Phone " ++ x ++ " already exists")).
Proof.
  intros H. apply str_in_In in H. unfold add_phone. now rewrite H.
Qed.

(** C9: for a valid raw phone [x], [add_phone x] succeeds on every record
    that does not hold [x] itself, and whenever [add_phone x] succeeds,
    [search_phone x] on the record returns a phone whose value is the
    normalization of [x]. *)
Theorem add_phone_then_search_phone (x v : string) (r : Record_) :
  normalize_phone x = Ok v ->
  (str_in x (phone_values r) = false ->
   is_Ok (add_phone normalize_phone x r) = true)
  /\ forall r' : Record_,
       add_phone normalize_phone x r = Ok r' ->
       exists p : Phone,
         search_phone normalize_phone x r' = Ok (Some p) /\ value p = v.
Proof.
  intros Hn. split.
  - intros Hx. now rewrite (add_phone_fresh _ x v r Hn Hx).
  - intros r' Hadd. apply (add_phone_Ok _ x v r r' Hn) in Hadd. subst r'.
    destruct (search_phone_loop_finds normalize_phone x v
                (phones r ++ [mkField "Phone" v]) Hn) as (p & Hp & Hv & _).
    { rewrite map_app. apply in_or_app. right. now left. }
    exists p. split; assumption.
Qed.

(** C10: [edit_phone] does not look for the new value among the phones.
    On a record without duplicates that holds the normalizations of both
    [old] and [new], [edit_phone old new] returns its message and leaves
    two equal values on the record. *)
Theorem edit_phone_breaks_no_duplicates
  (old new vo vn : string) (r : Record_) :
  normalize_phone old = Ok vo ->
  normalize_phone new = Ok vn ->
  vo <> vn ->
  NoDup (phone_values r) ->
  In vo (phone_values r) ->
  In vn (phone_values r) ->
  exists (r' : Record_) (msg : string),
    edit_phone normalize_phone old new r = Ok (r', Some msg)
    /\ List.length (phones r') = List.length (phones r)
    /\ ~ NoDup (phone_values r').
Proof.
  intros Ho Hn Hne Hnd Hvo Hvn.
  destruct (edit_phone_loop_found normalize_phone old new vo vn (phones r)
              Ho Hn Hvo) as (l1 & p & l2 & Hps & Hp & Hl1 & Hloop).
  unfold edit_phone. rewrite Hloop. cbn [bind fst snd].
  eexists. eexists. split; [reflexivity|].
  rewrite phone_values_set_phones. cbn [phones set_phones].
  split.
  - rewrite Hps, !length_app. reflexivity.
  - unfold phone_values in Hvn. rewrite Hps, map_app in Hvn. cbn in Hvn.
    rewrite map_app. cbn [map value].
    intros Hdup. apply NoDup_remove_2 in Hdup. apply Hdup.
    apply in_app_or in Hvn. apply in_or_app.
    destruct Hvn as [H|[H|H]]; [now left | congruence | now right].
Qed.

End PhoneClaims.

Section PhoneRuns.
Import Classes Runs.

(** The same raw number added twice to a new record. *)
Lemma add_phone_same_raw_twice_witness :
  exists r1 r2 : Record_,
    add_phone Sample.normalize_phone raw_ann nobody = Ok r1
    /\ In "+380501234567" (phone_values r1)
    /\ add_phone Sample.normalize_phone raw_ann r1 = Ok r2
    /\ phone_values r2 = ["+380501234567"; "+380501234567"].
Proof.
  apply (add_phone_same_raw_twice Sample.normalize_phone raw_ann
           "+380501234567" nobody).
  - reflexivity.
  - discriminate.
  - reflexivity.
Defined.

(** A raw number added to a new record and searched for. *)
Lemma add_phone_then_search_phone_witness :
  is_Ok (add_phone Sample.normalize_phone raw_ann nobody) = true
  /\ forall r' : Record_,
       add_phone Sample.normalize_phone raw_ann nobody = Ok r' ->
       exists p : Phone,
         search_phone Sample.normalize_phone raw_ann r' = Ok (Some p)
         /\ value p = "+380501234567".
Proof.
  destruct (add_phone_then_search_phone Sample.normalize_phone raw_ann
              "+380501234567" nobody eq_refl) as [H1 H2].
  split; [exact (H1 eq_refl) | exact H2].
Defined.

(** Two numbers added with [add_phone], then the first edited into the
    second. *)
Lemma edit_phone_breaks_no_duplicates_witness :
  (r1 <- add_phone Sample.normalize_phone "+380501234567" nobody ;;
   add_phone Sample.normalize_phone "+380671112233" r1) = Ok two_phones
  /\ exists (r' : Record_) (msg : string),
       edit_phone Sample.normalize_phone raw_ann "+380671112233" two_phones
       = Ok (r', Some msg)
       /\ List.length (phones r') = 2%nat
       /\ ~ NoDup (phone_values r').
Proof.
  split; [reflexivity|].
  apply (edit_phone_breaks_no_duplicates Sample.normalize_phone
           raw_ann "+380671112233"
           "+380501234567" "+380671112233" two_phones).
  - reflexivity.
  - reflexivity.
  - discriminate.
  - repeat constructor; cbn; intuition discriminate.
  - cbn. tauto.
  - cbn. tauto.
Defined.

End PhoneRuns.

(** ** The address book *)
Section Book.
Import Classes Runs.

Lemma dict_get_set_same {V : Type} (k : string) (v : V) (d : list (string * V)) :
  dict_get k (dict_set k v d) = Some v.
Proof.
  induction d as [|[k' v'] d IH]; cbn.
  - now rewrite String.eqb_refl.
  - destruct (String.eqb_spec k' k) as [->|E]; cbn.
    + now rewrite String.eqb_refl.
    + destruct (String.eqb_spec k' k); [contradiction | exact IH].
Qed.

Lemma dict_get_set_other {V : Type} (k k0 : string) (v : V)
  (d : list (string * V)) :
  k0 <> k -> dict_get k0 (dict_set k v d) = dict_get k0 d.
Proof.
  intros Hne. induction d as [|[k' v'] d IH]; cbn.
  - destruct (String.eqb_spec k k0); [congruence | reflexivity].
  - destruct (String.eqb_spec k' k) as [->|E]; cbn.
    + destruct (String.eqb_spec k k0); [congruence | reflexivity].
    + now rewrite IH.
Qed.

Lemma dict_keys_set_present {V : Type} (k : string) (v : V)
  (d : list (string * V)) :
  dict_get k d <> None -> dict_keys (dict_set k v d) = dict_keys d.
Proof.
  induction d as [|[k' v'] d IH]; cbn; [congruence|].
  destruct (String.eqb_spec k' k) as [->|E]; cbn; [reflexivity|].
  intros H. unfold dict_keys in IH. now rewrite IH.
Qed.

(** C4, as stated, fails: adding a second record named Ann to a book that
    holds Ann does not fail, and the entry that was there is gone. *)
Lemma add_record_replaces_ann :
  find "Ann" (book_of [ann; eve]) = Some ann
  /\ add_record ann2 (book_of [ann; eve]) = Ok (book_of [ann2; eve])
  /\ ann2 <> ann.
Proof. repeat split. discriminate. Qed.

(** C4, amended: [add_record] never fails; when the name is already a key
    of the address book, the new record takes the place of the one that
    was there (the key keeps its position), and in every case the book
    then maps the name to the new record and all other names to what they
    had. *)
Theorem add_record_overwrites (record : Record_) (book : AddressBook) :
  exists book' : AddressBook,
    add_record record book = Ok book'
    /\ find (value (name record)) book' = Some record
    /\ (forall k : string,
          k <> value (name record) -> find k book' = find k book)
    /\ (find (value (name record)) book <> None ->
        dict_keys book' = dict_keys book).
Proof.
  exists (dict_set (value (name record)) record book).
  split; [reflexivity|]. split; [apply dict_get_set_same|].
  split.
  - intros k Hk. now apply dict_get_set_other.
  - apply dict_keys_set_present.
Qed.

(** A second Ann added to a book that holds Ann and Eve. *)
Lemma add_record_overwrites_witness :
  exists book' : AddressBook,
    add_record ann2 (book_of [ann; eve]) = Ok book'
    /\ find "Ann" book' = Some ann2
    /\ (forall k : string,
          k <> "Ann" -> find k book' = find k (book_of [ann; eve]))
    /\ (find "Ann" (book_of [ann; eve]) <> None ->
        dict_keys book' = ["Ann"; "Eve"]).
Proof. exact (add_record_overwrites ann2 (book_of [ann; eve])). Defined.

End Book.

(** ** Searching *)
Section Search.
Import Classes Cli Runs.

Lemma startswith_spec (p s : string) :
  PyStr.startswith p s = true <-> exists t, s = p ++ t.
Proof.
  revert s. induction p as [|c p IH]; intros s; cbn.
  - split; [intros _; now exists s | reflexivity].
  - destruct s as [|c' s]; cbn.
    + split; [discriminate | intros (t & H); discriminate].
    + rewrite andb_true_iff, IH, Ascii.eqb_eq.
      split; [intros (-> & t & ->); now exists t|].
      intros (t & H). injection H as -> ->. split; [reflexivity | now exists t].
Qed.

Lemma append_assoc (a b c : string) : (a ++ b) ++ c = a ++ (b ++ c).
Proof. induction a as [|x a IH]; cbn; [reflexivity | now rewrite IH]. Qed.

(** [needle in hay] holds exactly when [needle] is a substring of [hay]. *)
Lemma contains_spec (needle hay : string) :
  PyStr.contains needle hay = true <-> exists a b, hay = a ++ needle ++ b.
Proof.
  induction hay as [|c hay IH]; cbn [PyStr.contains];
    rewrite orb_true_iff, startswith_spec.
  - split.
    + intros [(t & H)|H]; [|discriminate]. now exists "", t.
    + intros (a & b & H). left. destruct a; [now exists b | discriminate].
  - rewrite IH. split.
    + intros [(t & H)|(a & b & H)].
      * now exists "", t.
      * exists (String c a), b. cbn. now rewrite H.
    + intros (a & b & H). destruct a as [|c' a]; cbn in H.
      * left. now exists b.
      * right. exists a, b. congruence.
Qed.

Lemma search_match_spec (lower : string -> string) (pattern n : string)
  (record : Record_) :
  search_match lower pattern n record = true
  <-> Spec.is_substring (lower pattern) (lower n)
      \/ exists p : Phone,
           In p (phones record)
           /\ Spec.is_substring (lower pattern) (lower (value p)).
Proof.
  unfold search_match, Spec.is_substring.
  rewrite orb_true_iff, existsb_exists, contains_spec.
  split; intros [H|(p & Hp & H)]; [now left | right | now left | right];
    exists p; (split; [assumption|]); now apply contains_spec.
Qed.

Lemma search_loop_spec (lower : string -> string) (pattern : string)
  (items : list (string * Record_)) :
  forall found : bool,
    search_loop lower pattern items found
    = (map (fun item => search_line (fst item) (snd item))
         (Spec.matching lower pattern items),
       found
       || negb (Nat.eqb (List.length (Spec.matching lower pattern items)) 0)).
Proof.
  unfold Spec.matching.
  induction items as [|[n r] items IH]; intros found; cbn.
  - now rewrite orb_false_r.
  - destruct (search_match lower pattern n r); cbn.
    + rewrite IH. cbn. f_equal. now rewrite orb_true_r.
    + apply IH.
Qed.

End Search.

Section SearchClaims.
Import Classes Cli Runs.

(** C8, as stated, fails: a pattern that matches nothing makes the body of
    [search_contact] raise [ValueError]; under the decorator the call
    returns the text of the error, not an empty sequence. *)
Lemma search_contact_nothing_found :
  search_contact_body PyStr.lower "zed" (book_of [ann; bob])
  = ([], Raise (ValueError "Contact zed not found."))
  /\ search_contact PyStr.lower "zed" (book_of [ann; bob])
     = ([], Ok (Some "Contact zed not found.")).
Proof. split; reflexivity. Qed.

(** C8, amended: [search_contact] matches without regard to case in the
    sense of [str.lower]: a contact passes exactly when the pattern,
    lower-cased, occurs in the lower-cased name or in one of the
    lower-cased stored phone values, so patterns that [str.lower] sends
    to the same text pass the same contacts.  It prints one line per
    contact that passes, in the order of the address book, and returns
    [None] when at least one contact passed; when none did, its body
    raises [ValueError("Contact <pattern> not found.")], which the
    decorator [input_error] turns into that text as the returned value.
    All of this holds whatever letters [str.lower] folds. *)
Theorem search_contact_matches
  (lower : string -> string) (pattern : string) (book : AddressBook) :
  (forall (n : string) (record : Record_),
     search_match lower pattern n record = true
     <-> Spec.is_substring (lower pattern) (lower n)
         \/ exists p : Phone,
              In p (phones record)
              /\ Spec.is_substring (lower pattern) (lower (value p)))
  /\ (forall pattern' : string,
        lower pattern' = lower pattern ->
        Spec.matching lower pattern' book = Spec.matching lower pattern book)
  /\ fst (search_contact lower pattern book)
     = map (fun item => search_line (fst item) (snd item))
         (Spec.matching lower pattern book)
  /\ snd (search_contact_body lower pattern book)
     = match Spec.matching lower pattern book with
       | [] => Raise (ValueError (contact_not_found pattern))
       | _ :: _ => Ok tt
       end
  /\ snd (search_contact lower pattern book)
     = match Spec.matching lower pattern book with
       | [] => Ok (Some (contact_not_found pattern))
       | _ :: _ => Ok None
       end.
Proof.
  split; [intros n record; apply search_match_spec|].
  split.
  { intros pattern' E. unfold Spec.matching, search_match. now rewrite E. }
  unfold search_contact, search_contact_body.
  rewrite search_loop_spec. cbn [orb].
  destruct (Spec.matching lower pattern book) as [|item items]; cbn;
    repeat split; reflexivity.
Qed.

(** The search on a book of two contacts, in ASCII: a pattern in capitals
    finds the name, a run of digits finds the phone. *)
Lemma search_contact_by_name :
  search_contact PyStr.lower "AN" (book_of [ann; bob])
  = (["Ann: +380501234567"], Ok None).
Proof. reflexivity. Qed.

Lemma search_contact_by_phone :
  search_contact PyStr.lower "0671" (book_of [ann; bob])
  = (["Bob: +380671112233"], Ok None).
Proof. reflexivity. Qed.

End SearchClaims.

(** ** Saving *)
Section Saving.
Import Classes Cli Runs.

Variable json_text : jvalue -> string.

(** C7 (the code fails here): [save_phonebook] hands the [AddressBook]
    itself to [json.dump].  An [AddressBook] is a [UserDict], not a
    [dict], so the encoder raises [TypeError] for every address book, the
    empty one included, after [open(path, "w")] has emptied the file:
    nothing is serialized that [load_phonebook] could read back. *)
Theorem save_phonebook_raises (phonebook : AddressBook) (f : file) :
  save_phonebook json_text phonebook f
  = (Some "",
     Raise (TypeError "Object of type AddressBook is not JSON serializable")).
Proof. reflexivity. Qed.

End Saving.

(** ** Parsing a birthday *)
Section BirthdayText.
Import Datetime Classes Runs.

Ltac by_cases_on_char c :=
  destruct c as [[|] [|] [|] [|] [|] [|] [|] [|]];
  try discriminate; repeat split; reflexivity.

(** A digit is none of the characters [int] and [split] treat apart. *)
Lemma digit_is_plain (c : ascii) :
  PyStr.is_digit c = true ->
  PyStr.is_int_blank c = false
  /\ Ascii.eqb c "." = false
  /\ Ascii.eqb c "-" = false
  /\ Ascii.eqb c "+" = false.
Proof. intros H. by_cases_on_char c. Qed.

Lemma digit_value_range (c : ascii) :
  PyStr.is_digit c = true -> 0 <= PyStr.code c - 48 <= 9.
Proof.
  unfold PyStr.is_digit. rewrite andb_true_iff, !Z.leb_le. lia.
Qed.

Lemma skip_blanks_digit (c : ascii) (r : string) :
  PyStr.is_digit c = true -> PyStr.skip_blanks (String c r) = String c r.
Proof.
  intros H. cbn. now rewrite (proj1 (digit_is_plain c H)).
Qed.

Lemma drop_blanks_digits (s : string) :
  PyStr.all_digits s = true -> PyStr.drop_blanks s = s.
Proof.
  induction s as [|c s IH]; [reflexivity|].
  cbn [PyStr.all_digits PyStr.drop_blanks]. intros H.
  apply andb_true_iff in H. destruct H as [Hc Hs].
  rewrite (IH Hs). destruct s; [|reflexivity].
  now rewrite (proj1 (digit_is_plain c Hc)).
Qed.

Lemma parse_digits_digits (s : string) :
  forall (acc count : Z) (after_digit : bool),
    PyStr.all_digits s = true ->
    (s <> "" \/ after_digit = true) ->
    PyStr.parse_digits s acc count after_digit
    = Some (PyStr.digits_value s acc, count + Z.of_nat (String.length s)).
Proof.
  induction s as [|c s IH]; intros acc count after_digit Hs Hne.
  - destruct Hne as [Hne| ->]; [congruence|]. cbn.
    now rewrite Z.add_0_r.
  - cbn [PyStr.all_digits] in Hs. apply andb_true_iff in Hs.
    destruct Hs as [Hc Hs].
    cbn [PyStr.parse_digits PyStr.digits_value String.length].
    rewrite Hc, IH by (assumption || now right).
    f_equal. f_equal. lia.
Qed.

(** [int] of a run of digits is the number they write. *)
Lemma int_digits (s : string) :
  PyStr.all_digits s = true ->
  s <> "" ->
  Z.of_nat (String.length s) <= PyStr.MAX_STR_DIGITS ->
  PyStr.int s = Ok (PyStr.digits_value s 0).
Proof.
  intros Hs Hne Hlen. destruct s as [|c s]; [congruence|].
  pose proof Hs as Hs'. cbn [PyStr.all_digits] in Hs'.
  apply andb_true_iff in Hs'. destruct Hs' as [Hc _].
  destruct (digit_is_plain c Hc) as (_ & _ & Hminus & Hplus).
  unfold PyStr.int.
  rewrite (skip_blanks_digit c s Hc), (drop_blanks_digits _ Hs), Hminus, Hplus.
  rewrite parse_digits_digits by (assumption || now left).
  destruct (Z.ltb_spec PyStr.MAX_STR_DIGITS
              (0 + Z.of_nat (String.length (String c s)))); [lia|].
  reflexivity.
Qed.

Lemma split_ddmmyyyy (d1 d2 m1 m2 y1 y2 y3 y4 : ascii) :
  PyStr.is_digit d1 = true -> PyStr.is_digit d2 = true ->
  PyStr.is_digit m1 = true -> PyStr.is_digit m2 = true ->
  PyStr.is_digit y1 = true -> PyStr.is_digit y2 = true ->
  PyStr.is_digit y3 = true -> PyStr.is_digit y4 = true ->
  PyStr.split "." (Spec.ddmmyyyy d1 d2 m1 m2 y1 y2 y3 y4)
  = [String d1 (String d2 "");
     String m1 (String m2 "");
     String y1 (String y2 (String y3 (String y4 "")))].
Proof.
  intros D1 D2 M1 M2 Y1 Y2 Y3 Y4.
  unfold Spec.ddmmyyyy. cbn [PyStr.split].
  rewrite (proj1 (proj2 (digit_is_plain d1 D1))),
    (proj1 (proj2 (digit_is_plain d2 D2))),
    (proj1 (proj2 (digit_is_plain m1 M1))),
    (proj1 (proj2 (digit_is_plain m2 M2))),
    (proj1 (proj2 (digit_is_plain y1 Y1))),
    (proj1 (proj2 (digit_is_plain y2 Y2))),
    (proj1 (proj2 (digit_is_plain y3 Y3))),
    (proj1 (proj2 (digit_is_plain y4 Y4))).
  reflexivity.
Qed.

(** On a text DD.MM.YYYY of digits, [Birthday] is built when the three
    numbers are a calendar date and [ValueError] is raised when they are
    not. *)
Lemma Birthday_init_ddmmyyyy (d1 d2 m1 m2 y1 y2 y3 y4 : ascii) :
  PyStr.is_digit d1 = true -> PyStr.is_digit d2 = true ->
  PyStr.is_digit m1 = true -> PyStr.is_digit m2 = true ->
  PyStr.is_digit y1 = true -> PyStr.is_digit y2 = true ->
  PyStr.is_digit y3 = true -> PyStr.is_digit y4 = true ->
  Birthday_init (Spec.ddmmyyyy d1 d2 m1 m2 y1 y2 y3 y4)
  = if valid_date (Spec.date_of_digits d1 d2 m1 m2 y1 y2 y3 y4)
    then Ok (mkField "Birthday" (Spec.date_of_digits d1 d2 m1 m2 y1 y2 y3 y4))
    else Raise (ValueError invalid_date_format).
Proof.
  intros D1 D2 M1 M2 Y1 Y2 Y3 Y4.
  unfold Birthday_init. rewrite split_ddmmyyyy by assumption.
  unfold unpack3.
  rewrite !int_digits;
    try (cbn [PyStr.all_digits]; rewrite ?D1, ?D2, ?M1, ?M2, ?Y1, ?Y2, ?Y3, ?Y4;
         reflexivity);
    try discriminate;
    try (unfold PyStr.MAX_STR_DIGITS; cbn; lia).
  cbn [bind].
  unfold Spec.date_of_digits.
  set (y := PyStr.digits_value _ 0).
  set (m := PyStr.digits_value (String m1 _) 0).
  set (d := PyStr.digits_value (String d1 _) 0).
  destruct (valid_date (mkdate y m d)) eqn:V.
  - now rewrite (date_new_valid _ _ _ V).
  - assert (Hy : 0 <= y <= 9999).
    { subst y. cbn [PyStr.digits_value].
      pose proof (digit_value_range y1 Y1). pose proof (digit_value_range y2 Y2).
      pose proof (digit_value_range y3 Y3). pose proof (digit_value_range y4 Y4).
      lia. }
    assert (Hm : 0 <= m <= 99).
    { subst m. cbn [PyStr.digits_value].
      pose proof (digit_value_range m1 M1). pose proof (digit_value_range m2 M2).
      lia. }
    assert (Hd : 0 <= d <= 99).
    { subst d. cbn [PyStr.digits_value].
      pose proof (digit_value_range d1 D1). pose proof (digit_value_range d2 D2).
      lia. }
    unfold date_new.
    rewrite !as_c_int_small by (unfold INT_MIN, INT_MAX; lia). cbn [bind].
    unfold valid_date in V. cbn [year month day] in V.
    destruct ((MINYEAR <=? y) && (y <=? MAXYEAR)) eqn:E1; [|reflexivity].
    destruct ((1 <=? m) && (m <=? 12)) eqn:E2; [|reflexivity].
    destruct ((1 <=? d) && (d <=? _days_in_month y m)) eqn:E3; [|reflexivity].
    exfalso. cbn [andb] in V. rewrite E2 in V. cbn [andb] in V. congruence.
Qed.

(** Whatever goes wrong in the [try] of [Birthday.__init__] as a
    [ValueError] leaves it with the one message. *)
Lemma Birthday_init_message (v msg : string) :
  Birthday_init v = Raise (ValueError msg) -> msg = invalid_date_format.
Proof.
  unfold Birthday_init, except_ValueError.
  destruct (bind _ _) as [b|[]]; congruence.
Qed.

End BirthdayText.

Section BirthdayClaims.
Import Datetime Classes Runs.

(** C6, as stated, fails: [add_birthday] on 29.02.2021 does not fail.  It
    prints the message of the [ValueError] and returns; the caller gets no
    failure, and the birthday the record had stays. *)
Lemma add_birthday_feb29_returns :
  add_birthday "29.02.2021" ann = ([invalid_date_format], Ok ann).
Proof. reflexivity. Qed.

(** C6, amended: [Birthday(value)] raises
    [ValueError("Invalid date format. Use DD.MM.YYYY")] on 29.02.2021 and
    on every text DD.MM.YYYY of digits that is not a calendar date;
    whenever it raises [ValueError], [Record.add_birthday] prints the
    message and returns with the record unchanged, so no failure reaches
    the caller; whenever it succeeds, as on every text DD.MM.YYYY of
    digits that is a calendar date, [add_birthday] puts the new birthday
    in place of the one the record had. *)
Theorem add_birthday_prints_invalid (r : Record_) :
  Birthday_init "29.02.2021" = Raise (ValueError invalid_date_format)
  /\ (forall v msg : string,
        Birthday_init v = Raise (ValueError msg) ->
        add_birthday v r = ([invalid_date_format], Ok r))
  /\ (forall (v : string) (b : Birthday),
        Birthday_init v = Ok b ->
        add_birthday v r = ([], Ok (set_birthday r (Some b))))
  /\ (forall d1 d2 m1 m2 y1 y2 y3 y4 : ascii,
        PyStr.is_digit d1 = true -> PyStr.is_digit d2 = true ->
        PyStr.is_digit m1 = true -> PyStr.is_digit m2 = true ->
        PyStr.is_digit y1 = true -> PyStr.is_digit y2 = true ->
        PyStr.is_digit y3 = true -> PyStr.is_digit y4 = true ->
        add_birthday (Spec.ddmmyyyy d1 d2 m1 m2 y1 y2 y3 y4) r
        = if valid_date (Spec.date_of_digits d1 d2 m1 m2 y1 y2 y3 y4)
          then ([], Ok (set_birthday r
                          (Some (mkField "Birthday"
                                   (Spec.date_of_digits d1 d2 m1 m2 y1 y2 y3 y4)))))
          else ([invalid_date_format], Ok r)).
Proof.
  split; [reflexivity|]. split; [|split].
  - intros v msg H. unfold add_birthday. rewrite H.
    now rewrite (Birthday_init_message v msg H).
  - intros v b H. unfold add_birthday. now rewrite H.
  - intros d1 d2 m1 m2 y1 y2 y3 y4 D1 D2 M1 M2 Y1 Y2 Y3 Y4.
    unfold add_birthday.
    rewrite Birthday_init_ddmmyyyy by assumption.
    now destruct (valid_date _).
Qed.

(** Two dates that do not exist and one that does, on a record that has a
    birthday. *)
Lemma add_birthday_prints_invalid_witness :
  add_birthday "29.02.2021" ann = ([invalid_date_format], Ok ann)
  /\ add_birthday "31.04.2000" ann = ([invalid_date_format], Ok ann)
  /\ add_birthday "01.03.2000" ann
     = ([], Ok (set_birthday ann (Some (born (mkdate 2000 3 1))))).
Proof.
  destruct (add_birthday_prints_invalid ann) as (H0 & H1 & _ & H3).
  split; [exact (H1 _ _ H0)|]. split.
  - exact (H3 "3" "1" "0" "4" "2" "0" "0" "0"
             eq_refl eq_refl eq_refl eq_refl eq_refl eq_refl eq_refl eq_refl)%char.
  - exact (H3 "0" "1" "0" "3" "2" "0" "0" "0"
             eq_refl eq_refl eq_refl eq_refl eq_refl eq_refl eq_refl eq_refl)%char.
Defined.

(** An integer that does not fit a C [int] is not a [ValueError]: it goes
    through both [except] clauses. *)
Lemma add_birthday_huge_year :
  add_birthday "01.01.99999999999" ann
  = ([], Raise (OverflowError "signed integer is greater than maximum")).
Proof. reflexivity. Qed.

End BirthdayClaims.

(** ** More on the phones of a record *)
Section MorePhones.
Import Classes.

Variable normalize_phone : string -> result string.

Lemma set_phones_same (r : Record_) : set_phones r (phones r) = r.
Proof. now destruct r. Qed.

Lemma delete_phone_loop_found (x v : string) (ps : list Phone) :
  normalize_phone x = Ok v ->
  In v (map value ps) ->
  exists l1 p l2,
    ps = (l1 ++ p :: l2)%list
    /\ value p = v
    /\ ~ In v (map value l1)
    /\ delete_phone_loop normalize_phone x ps
       = Ok ((l1 ++ l2)%list, Some ("Phone " ++ x ++ " deleted")).
Proof.
  intros Hn. induction ps as [|p ps IH]; intros Hin; [contradiction|].
  cbn [delete_phone_loop]. rewrite Hn. cbn [bind].
  destruct (String.eqb_spec (value p) v) as [E|E].
  - exists [], p, ps. cbn. repeat split; auto.
  - destruct Hin as [Hin|Hin]; [contradiction|].
    destruct (IH Hin) as (l1 & q & l2 & -> & Hq & Hl1 & Hloop).
    exists (p :: l1), q, l2. rewrite Hloop. cbn.
    repeat split; auto.
    intros [H|H]; [contradiction | now apply Hl1].
Qed.

Lemma delete_phone_loop_absent (x v : string) (ps : list Phone) :
  normalize_phone x = Ok v ->
  ~ In v (map value ps) ->
  delete_phone_loop normalize_phone x ps = Ok (ps, None).
Proof.
  intros Hn. induction ps as [|p ps IH]; intros Hin; [reflexivity|].
  cbn [delete_phone_loop]. rewrite Hn. cbn [bind].
  destruct (String.eqb_spec (value p) v) as [E|E].
  - exfalso. apply Hin. now left.
  - rewrite IH; [reflexivity|]. intros H. apply Hin. now right.
Qed.

(** X1: [search_phone] answers [None], not an error, for a number that is
    not on the record; the argument is normalized once per stored phone,
    so on a record without phones even a number the normalizer rejects
    gives [None], and on a record with phones it raises the normalizer's
    error. *)
Theorem search_phone_not_stored (x : string) (r : Record_) :
  (phones r = [] -> search_phone normalize_phone x r = Ok None)
  /\ (forall v : string,
        normalize_phone x = Ok v -> ~ In v (phone_values r) ->
        search_phone normalize_phone x r = Ok None)
  /\ (forall e : exn,
        normalize_phone x = Raise e -> phones r <> [] ->
        search_phone normalize_phone x r = Raise e).
Proof.
  unfold search_phone. split; [|split].
  - intros ->. reflexivity.
  - intros v Hn Hv. now apply (search_phone_loop_absent _ x v).
  - intros e Hn Hne. destruct (phones r) as [|p ps]; [congruence|].
    cbn [search_phone_loop]. now rewrite Hn.
Qed.

(** X2: [edit_phone] of a number that is not on the record returns [None]
    and leaves the record as it is; the new number is not even
    normalized, so an invalid one goes unnoticed. *)
Theorem edit_phone_not_stored (old new vo : string) (r : Record_) :
  normalize_phone old = Ok vo ->
  ~ In vo (phone_values r) ->
  edit_phone normalize_phone old new r = Ok (r, None).
Proof.
  intros Ho Hin. unfold edit_phone.
  rewrite (edit_phone_loop_absent _ old new vo (phones r) Ho Hin).
  cbn [bind fst snd]. now rewrite set_phones_same.
Qed.

(** X3: after a successful [edit_phone old new], [search_phone new] finds
    the new value; the name, the birthday and the number of phones are
    what they were; and on a record without duplicates, with the two
    values different, [search_phone old] then finds nothing. *)
Theorem edit_phone_then_search_phone
  (old new vo vn : string) (r : Record_) :
  normalize_phone old = Ok vo ->
  normalize_phone new = Ok vn ->
  In vo (phone_values r) ->
  exists (r' : Record_) (msg : string),
    edit_phone normalize_phone old new r = Ok (r', Some msg)
    /\ name r' = name r /\ birthday r' = birthday r
    /\ List.length (phones r') = List.length (phones r)
    /\ (exists p : Phone,
          search_phone normalize_phone new r' = Ok (Some p) /\ value p = vn)
    /\ (NoDup (phone_values r) -> vo <> vn ->
        search_phone normalize_phone old r' = Ok None).
Proof.
  intros Ho Hn Hvo.
  destruct (edit_phone_loop_found normalize_phone old new vo vn (phones r)
              Ho Hn Hvo) as (l1 & p & l2 & Hps & Hp & Hl1 & Hloop).
  unfold edit_phone. rewrite Hloop. cbn [bind fst snd].
  eexists. eexists. split; [reflexivity|].
  split; [reflexivity|]. split; [reflexivity|].
  cbn [set_phones phones]. split; [|split].
  - rewrite Hps, !length_app. reflexivity.
  - unfold search_phone. cbn [set_phones phones].
    destruct (search_phone_loop_finds normalize_phone new vn
                (l1 ++ mkField (field_name p) vn :: l2) Hn)
      as (q & Hq & Hv & _).
    { rewrite map_app. apply in_or_app. right. now left. }
    exists q. split; assumption.
  - intros Hnd Hne. unfold search_phone. cbn [set_phones phones].
    apply (search_phone_loop_absent _ old vo); [assumption|].
    unfold phone_values in Hnd. rewrite Hps, map_app in Hnd. cbn [map] in Hnd.
    apply NoDup_remove_2 in Hnd. rewrite Hp in Hnd.
    rewrite map_app. cbn [map value]. intros H.
    apply in_app_or in H. destruct H as [H|[H|H]].
    + now apply Hl1.
    + congruence.
    + apply Hnd. apply in_or_app. now right.
Qed.

(** X4: [delete_phone] takes out the first phone whose value is the
    normalized argument and nothing else; on a record without duplicates
    [search_phone] then finds nothing; a number that is not stored gives
    [None] and leaves the record as it is. *)
Theorem delete_phone_removes_first (x v : string) (r : Record_) :
  normalize_phone x = Ok v ->
  (In v (phone_values r) ->
   exists (l1 l2 : list string) (r' : Record_),
     phone_values r = (l1 ++ v :: l2)%list
     /\ ~ In v l1
     /\ delete_phone normalize_phone x r
        = Ok (r', Some ("Phone " ++ x ++ " deleted"))
     /\ phone_values r' = (l1 ++ l2)%list
     /\ name r' = name r /\ birthday r' = birthday r
     /\ (NoDup (phone_values r) ->
         search_phone normalize_phone x r' = Ok None))
  /\ (~ In v (phone_values r) ->
      delete_phone normalize_phone x r = Ok (r, None)).
Proof.
  intros Hn. split.
  - intros Hin.
    destruct (delete_phone_loop_found x v (phones r) Hn Hin)
      as (l1 & p & l2 & Hps & Hp & Hl1 & Hloop).
    exists (map value l1), (map value l2), (set_phones r (l1 ++ l2)).
    unfold delete_phone. rewrite Hloop. cbn [bind fst snd].
    unfold phone_values at 1. rewrite Hps, map_app. cbn [map]. rewrite Hp.
    split; [reflexivity|]. split; [assumption|]. split; [reflexivity|].
    rewrite phone_values_set_phones, map_app.
    split; [reflexivity|]. split; [reflexivity|]. split; [reflexivity|].
    intros Hnd. unfold search_phone. cbn [set_phones phones].
    apply (search_phone_loop_absent _ x v); [assumption|].
    unfold phone_values in Hnd. rewrite Hps, map_app in Hnd. cbn [map] in Hnd.
    apply NoDup_remove_2 in Hnd. now rewrite Hp in Hnd; rewrite map_app.
  - intros Hin. unfold delete_phone.
    rewrite (delete_phone_loop_absent x v (phones r) Hn Hin).
    cbn [bind fst snd]. now rewrite set_phones_same.
Qed.

(** X5: adding a number whose normalization is not on the record and
    deleting it again gives the record back. *)
Theorem add_phone_delete_phone (x v : string) (r : Record_) :
  normalize_phone x = Ok v ->
  ~ In x (phone_values r) ->
  ~ In v (phone_values r) ->
  exists r1 : Record_,
    add_phone normalize_phone x r = Ok r1
    /\ delete_phone normalize_phone x r1
       = Ok (r, Some ("Phone " ++ x ++ " deleted")).
Proof.
  intros Hn Hx Hv.
  assert (Hx' : str_in x (phone_values r) = false).
  { destruct (str_in x (phone_values r)) eqn:E; [|reflexivity].
    apply str_in_In in E. contradiction. }
  exists (set_phones r (phones r ++ [mkField "Phone" v])).
  split; [now apply add_phone_fresh|].
  unfold delete_phone. cbn [set_phones phones].
  assert (L : forall ps : list Phone,
             ~ In v (map value ps) ->
             delete_phone_loop normalize_phone x (ps ++ [mkField "Phone" v])
             = Ok (ps, Some ("Phone " ++ x ++ " deleted"))).
  { induction ps as [|p ps IH]; intros Hps; cbn [app delete_phone_loop];
      rewrite Hn; cbn [bind].
    - cbn [value]. now rewrite String.eqb_refl.
    - destruct (String.eqb_spec (value p) v) as [E|E].
      + exfalso. apply Hps. now left.
      + rewrite IH; [reflexivity|]. intros H. apply Hps. now right. }
  rewrite (L (phones r) Hv). cbn [bind fst snd].
  destruct r. reflexivity.
Qed.

(** The phones [add_phone] and [edit_phone] store come out of the
    normalizer. *)
Lemma add_phone_normalized (x : string) (r r' : Record_) :
  Inv.phones_normalized normalize_phone r ->
  add_phone normalize_phone x r = Ok r' ->
  Inv.phones_normalized normalize_phone r'
  /\ name r' = name r /\ birthday r' = birthday r.
Proof.
  unfold Inv.phones_normalized, add_phone, Phone_init. intros Hr.
  destruct (str_in x (phone_values r)); [discriminate|].
  destruct (normalize_phone x) as [v|e] eqn:Hn; [|discriminate].
  cbn [bind]. intros E. injection E as <-. cbn [set_phones phones name birthday].
  split; [|split; reflexivity].
  apply Forall_app. split; [assumption|].
  constructor; [|constructor]. now exists x.
Qed.

Lemma edit_phone_loop_normalized (old new : string) (ps ps' : list Phone)
  (msg : option string) :
  Forall (fun p => exists raw, normalize_phone raw = Ok (value p)) ps ->
  edit_phone_loop normalize_phone old new ps = Ok (ps', msg) ->
  Forall (fun p => exists raw, normalize_phone raw = Ok (value p)) ps'.
Proof.
  revert ps' msg. induction ps as [|p ps IH]; intros ps' msg Hps.
  - cbn. intros E. injection E as <- _. constructor.
  - cbn [edit_phone_loop].
    destruct (normalize_phone old) as [vo|e]; [|discriminate]. cbn [bind].
    inversion Hps as [|? ? Hp Hrest]; subst.
    destruct (String.eqb (value p) vo).
    + destruct (normalize_phone new) as [vn|e] eqn:Hn; [|discriminate].
      cbn [bind]. intros E. injection E as <- _.
      constructor; [now exists new | assumption].
    + destruct (edit_phone_loop normalize_phone old new ps) as [[ps1 m1]|e];
        [|discriminate].
      cbn [bind fst snd]. intros E. injection E as <- _.
      constructor; [assumption|]. now apply (IH ps1 m1).
Qed.

Lemma edit_phone_normalized (old new : string) (r r' : Record_)
  (msg : option string) :
  Inv.phones_normalized normalize_phone r ->
  edit_phone normalize_phone old new r = Ok (r', msg) ->
  Inv.phones_normalized normalize_phone r'
  /\ name r' = name r /\ birthday r' = birthday r.
Proof.
  unfold Inv.phones_normalized, edit_phone. intros Hr.
  destruct (edit_phone_loop normalize_phone old new (phones r))
    as [[ps m]|e] eqn:E; [|discriminate].
  cbn [bind fst snd]. intros E'. injection E' as <- _.
  cbn [set_phones phones name birthday].
  split; [|split; reflexivity].
  now apply (edit_phone_loop_normalized old new (phones r) ps m).
Qed.

End MorePhones.

(** ** Building a record *)
Section BuildingRecords.
Import Datetime Classes.

Variable normalize_phone : string -> result string.

(** The normalizer rejects a number with a [ValueError], as the docstring
    of [add_phone] says. *)
Hypothesis rejects_with_ValueError :
  forall (x : string) (e : exn),
    normalize_phone x = Raise e -> exists msg, e = ValueError msg.




End BuildingRecords.

Section Birthdays.
Import Datetime Classes.

Lemma unpack3_raises_ValueError (parts : list string) (e : exn) :
  unpack3 parts = Raise e -> exists msg, e = ValueError msg.
Proof.
  assert (I : forall s e', PyStr.int s = Raise e' -> exists msg, e' = ValueError msg).
  { intros s e'. unfold PyStr.int.
    destruct (PyStr.drop_blanks (PyStr.skip_blanks s)) as [|c s'].
    - cbn. intros E. injection E as <-. unfold PyStr.invalid_literal. eauto.
    - destruct (Ascii.eqb c "-"), (Ascii.eqb c "+");
        match goal with
        | |- context [PyStr.parse_digits ?b 0 0 false] =>
            destruct (PyStr.parse_digits b 0 0 false) as [[v k]|]
        end;
        try (destruct (PyStr.MAX_STR_DIGITS <? _));
        intros E; try discriminate; injection E as <-;
        unfold PyStr.invalid_literal; eauto. }
  unfold unpack3.
  destruct parts as [|a [|b [|c rest]]].
  - intros E. injection E as <-. eauto.
  - destruct (PyStr.int a) eqn:Ea; cbn [bind]; intros E; injection E as <-;
      eauto.
  - destruct (PyStr.int a) eqn:Ea; cbn [bind]; [|intros E; injection E as <-; eauto].
    destruct (PyStr.int b) eqn:Eb; cbn [bind]; intros E; injection E as <-;
      eauto.
  - destruct (PyStr.int a) eqn:Ea; cbn [bind]; [|intros E; injection E as <-; eauto].
    destruct (PyStr.int b) eqn:Eb; cbn [bind]; [|intros E; injection E as <-; eauto].
    destruct (PyStr.int c) eqn:Ec; cbn [bind]; [|intros E; injection E as <-; eauto].
    destruct rest as [|d rest]; [discriminate|].
    destruct (PyStr.int d) eqn:Ed; cbn [bind]; intros E; injection E as <-;
      eauto.
Qed.

Lemma date_new_raises (y m d : Z) (e : exn) :
  date_new y m d = Raise e ->
  (exists msg, e = ValueError msg) \/ (exists msg, e = OverflowError msg).
Proof.
  unfold date_new, as_c_int.
  destruct (INT_MAX <? y); [intros E; injection E as <-; eauto|].
  destruct (y <? INT_MIN); [intros E; injection E as <-; eauto|].
  destruct (INT_MAX <? m); [intros E; injection E as <-; eauto|].
  destruct (m <? INT_MIN); [intros E; injection E as <-; eauto|].
  destruct (INT_MAX <? d); [intros E; injection E as <-; eauto|].
  destruct (d <? INT_MIN); [intros E; injection E as <-; eauto|].
  cbn [bind].
  destruct (negb _); [intros E; injection E as <-; eauto|].
  destruct (negb _); [intros E; injection E as <-; eauto|].
  destruct (negb _); [intros E; injection E as <-; eauto|].
  discriminate.
Qed.

(** A [Birthday] that is built holds a date of the calendar; one that is
    not built raised the one [ValueError] or an [OverflowError]. *)
Lemma Birthday_init_cases (v : string) :
  (exists b, Birthday_init v = Ok b
             /\ valid_date (value b) = true /\ field_name b = "Birthday")
  \/ Birthday_init v = Raise (ValueError invalid_date_format)
  \/ exists msg, Birthday_init v = Raise (OverflowError msg).
Proof.
  unfold Birthday_init.
  destruct (unpack3 (PyStr.split "." v)) as [[[d m] y]|e] eqn:U; cbn [bind].
  - destruct (date_new y m d) as [dt|e] eqn:D; cbn [bind except_ValueError].
    + left. exists (mkField "Birthday" dt). split; [reflexivity|].
      split; [|reflexivity]. exact (proj2 (date_new_Ok _ _ _ _ D)).
    + destruct (date_new_raises _ _ _ _ D) as [(msg & ->)|(msg & ->)];
        cbn; eauto.
  - destruct (unpack3_raises_ValueError _ _ U) as (msg & ->). cbn. eauto.
Qed.

(** X7: [Record.add_birthday] stores nothing but a date of the calendar
    and never touches the name or the phones: either it returns, with a
    record whose birthday is a real date whenever the old one was, or it
    lets out the [OverflowError] of a number too large for [date], having
    printed nothing; it never raises [ValueError]. *)
Theorem add_birthday_keeps_calendar_dates (v : string) (r : Record_) :
  Inv.birthday_ok r ->
  (exists (out : list string) (r' : Record_),
     add_birthday v r = (out, Ok r')
     /\ Inv.birthday_ok r'
     /\ name r' = name r /\ phones r' = phones r)
  \/ exists msg : string, add_birthday v r = ([], Raise (OverflowError msg)).
Proof.
  intros Hr. unfold add_birthday.
  destruct (Birthday_init_cases v) as [(b & -> & Hv & _)|[->|(msg & ->)]].
  - left. exists [], (set_birthday r (Some b)). repeat split.
    unfold Inv.birthday_ok. cbn. exact Hv.
  - left. exists [invalid_date_format], r. repeat split. exact Hr.
  - right. now exists msg.
Qed.

End Birthdays.

(** ** More on the scheduler *)
Section MoreScheduler.
Import Datetime Classes.

Lemma upcoming_step_Ok (today : date) (r : Record_) (l : list entry) :
  upcoming_step today r = Ok l -> Spec.placeable today r = true.
Proof.
  unfold upcoming_step, Spec.placeable, Spec.birthdayThisYear.
  destruct (birthday r) as [b|]; [|discriminate].
  destruct (date_new (year today) (month (value b)) (day (value b)))
    as [bty|e] eqn:D; [|discriminate].
  intros _. destruct (date_new_Ok _ _ _ _ D) as [-> Hv]. exact Hv.
Qed.

Lemma upcoming_loop_Ok (today : date) (rs : list Record_) :
  forall acc l,
    upcoming_loop today rs acc = Ok l ->
    forallb (Spec.placeable today) rs = true.
Proof.
  induction rs as [|r rs IH]; intros acc l H; [reflexivity|].
  cbn [upcoming_loop] in H. cbn [forallb].
  destruct (upcoming_step today r) as [new|e] eqn:S; [|discriminate].
  cbn [bind] in H. rewrite (upcoming_step_Ok _ _ _ S). cbn [andb].
  exact (IH _ _ H).
Qed.

Lemma scheduled_length (today : date) (r : Record_) :
  (List.length (Spec.scheduled today r) <= 1)%nat.
Proof.
  unfold Spec.scheduled. destruct (birthday r); [|cbn; lia].
  destruct (Spec.inWindow _); cbn; lia.
Qed.

Lemma upcoming_length (today : date) (rs : list Record_) :
  (List.length (Spec.upcoming today rs) <= List.length rs)%nat.
Proof.
  unfold Spec.upcoming. induction rs as [|r rs IH]; cbn [flat_map]; [cbn; lia|].
  rewrite length_app. pose proof (scheduled_length today r). cbn [List.length]. lia.
Qed.

(** X8: [get_upcoming_birthdays] returns exactly when every record of the
    address book has a birthday whose month and day exist in today's
    year; one record without a birthday, or one 29 February in a year
    that is not a leap year, makes the whole call raise. *)
Theorem get_upcoming_birthdays_returns_iff (today : date) (book : AddressBook) :
  is_Ok (get_upcoming_birthdays today book)
  = forallb (Spec.placeable today) (dict_values book).
Proof.
  destruct (forallb (Spec.placeable today) (dict_values book)) eqn:P.
  - now apply get_upcoming_birthdays_returns.
  - unfold get_upcoming_birthdays, upcoming_birthdays.
    destruct (upcoming_loop today (dict_values book) []) as [l|e] eqn:L;
      [|reflexivity].
    apply upcoming_loop_Ok in L. congruence.
Qed.

(** X9: when the list of upcoming birthdays is built, it has at most one
    entry per record; each entry carries the name of a record of the
    book, a birthday in today's year, and a day to congratulate that is a
    date, lies from 0 to 7 days after today, at most 2 days after the
    birthday, and is never a Saturday or a Sunday. *)
Theorem upcoming_entries_on_working_days
  (today : date) (book : AddressBook) (l : list entry) :
  upcoming_birthdays today book = Ok l ->
  (List.length l <= List.length book)%nat
  /\ forall (n : string) (b c : date),
       In (n, b, c) l ->
       year b = year today
       /\ valid_date c = true
       /\ 0 <= toordinal c - toordinal today <= 7
       /\ 0 <= toordinal c - toordinal b <= 2
       /\ 0 <= weekday c <= 4
       /\ exists r : Record_, In r (dict_values book) /\ value (name r) = n.
Proof.
  unfold upcoming_birthdays. intros H.
  pose proof (upcoming_loop_Ok _ _ _ _ H) as P.
  rewrite (upcoming_loop_placeable _ _ [] P) in H. cbn [app] in H.
  injection H as <-. split.
  - pose proof (upcoming_length today (dict_values book)) as L.
    unfold dict_values in L at 2. now rewrite length_map in L.
  - intros n b c Hin. unfold Spec.upcoming in Hin.
    apply in_flat_map in Hin. destruct Hin as (r & Hr & Hin).
    unfold Spec.scheduled in Hin.
    destruct (birthday r) as [bd|] eqn:Hb; [|contradiction].
    destruct (Spec.inWindow _) eqn:W; [|contradiction].
    destruct Hin as [E|[]]. injection E as <- <- <-.
    pose proof (placeable_in today _ r bd P Hr Hb) as Hv.
    destruct (congratulation_date_ordinal today (value bd) Hv) as [Hc Ho].
    unfold Spec.inWindow in W. apply andb_true_iff in W.
    rewrite !Z.leb_le in W.
    split; [reflexivity|]. split; [assumption|].
    split; [lia|].
    assert (Hs : toordinal (Spec.congratulationDate today (value bd))
                 - toordinal (Spec.birthdayThisYear today (value bd))
                 = Spec.weekendShift (Spec.birthdayThisYear today (value bd))).
    { rewrite Ho. unfold Spec.shiftedDaysUntil, Spec.daysUntil. lia. }
    split; [|split].
    + rewrite Hs. unfold Spec.weekendShift.
      destruct (_ =? 5); [lia|]. destruct (_ =? 6); lia.
    + unfold weekday at 1 2.
      replace (toordinal (Spec.congratulationDate today (value bd)))
        with (toordinal (Spec.birthdayThisYear today (value bd))
              + Spec.weekendShift (Spec.birthdayThisYear today (value bd)))
        by lia.
      unfold Spec.weekendShift, weekday.
      destruct (Z.eqb_spec
                  ((toordinal (Spec.birthdayThisYear today (value bd)) + 6) mod 7) 5);
        [Z.div_mod_to_equations; lia|].
      destruct (Z.eqb_spec
                  ((toordinal (Spec.birthdayThisYear today (value bd)) + 6) mod 7) 6);
        Z.div_mod_to_equations; lia.
    + exists r. split; [exact Hr | reflexivity].
Qed.

End MoreScheduler.

(** ** More on the address book *)
Section MoreBook.
Import Classes.

Lemma dict_get_None {V : Type} (k : string) (d : list (string * V)) :
  dict_get k d = None <-> ~ In k (dict_keys d).
Proof.
  induction d as [|[k' v] d IH]; cbn; [tauto|].
  destruct (String.eqb_spec k' k) as [->|E].
  - split; [discriminate | intros H; exfalso; apply H; now left].
  - rewrite IH. unfold dict_keys. tauto.
Qed.

Lemma dict_get_In {V : Type} (k : string) (v : V) (d : list (string * V)) :
  dict_get k d = Some v -> In (k, v) d.
Proof.
  induction d as [|[k' v'] d IH]; cbn; [discriminate|].
  destruct (String.eqb_spec k' k) as [->|E].
  - intros H. injection H as ->. now left.
  - intros H. right. now apply IH.
Qed.

Lemma dict_set_same {V : Type} (k : string) (v : V) (d : list (string * V)) :
  dict_get k d = Some v -> dict_set k v d = d.
Proof.
  induction d as [|[k' v'] d IH]; cbn; [discriminate|].
  destruct (String.eqb_spec k' k) as [->|E].
  - intros H. now injection H as ->.
  - intros H. now rewrite IH.
Qed.

Lemma dict_set_absent {V : Type} (k : string) (v : V) (d : list (string * V)) :
  dict_get k d = None -> dict_set k v d = (d ++ [(k, v)])%list.
Proof.
  induction d as [|[k' v'] d IH]; cbn; [reflexivity|].
  destruct (String.eqb_spec k' k) as [->|E]; [discriminate|].
  intros H. now rewrite IH.
Qed.

Lemma dict_del_absent {V : Type} (k : string) (d : list (string * V)) :
  dict_get k d = None -> dict_del k d = d.
Proof.
  induction d as [|[k' v'] d IH]; cbn; [reflexivity|].
  destruct (String.eqb_spec k' k) as [->|E]; [discriminate|].
  intros H. now rewrite IH.
Qed.

Lemma dict_del_set_absent {V : Type} (k : string) (v : V)
  (d : list (string * V)) :
  dict_get k d = None -> dict_del k (dict_set k v d) = d.
Proof.
  induction d as [|[k' v'] d IH]; cbn.
  - now rewrite String.eqb_refl.
  - destruct (String.eqb_spec k' k) as [->|E]; [discriminate|].
    intros H. cbn. destruct (String.eqb_spec k' k); [contradiction|].
    now rewrite IH.
Qed.

Lemma dict_keys_del_incl {V : Type} (k k0 : string) (d : list (string * V)) :
  In k0 (dict_keys (dict_del k d)) -> In k0 (dict_keys d).
Proof.
  induction d as [|[k' v'] d IH]; cbn; [tauto|].
  destruct (String.eqb_spec k' k) as [->|E]; cbn.
  - intros H. now right.
  - intros [H|H]; [now left | right; now apply IH].
Qed.

Lemma dict_get_del_same {V : Type} (k : string) (d : list (string * V)) :
  NoDup (dict_keys d) -> dict_get k (dict_del k d) = None.
Proof.
  induction d as [|[k' v'] d IH]; cbn; [reflexivity|].
  intros H. inversion H as [|? ? Hk Hd]; subst.
  destruct (String.eqb_spec k' k) as [->|E].
  - now apply dict_get_None.
  - cbn. destruct (String.eqb_spec k' k); [contradiction|]. now apply IH.
Qed.

Lemma dict_get_del_other {V : Type} (k k0 : string) (d : list (string * V)) :
  k0 <> k -> dict_get k0 (dict_del k d) = dict_get k0 d.
Proof.
  intros Hne. induction d as [|[k' v'] d IH]; cbn; [reflexivity|].
  destruct (String.eqb_spec k' k) as [->|E]; cbn.
  - destruct (String.eqb_spec k k0); [congruence | reflexivity].
  - now rewrite IH.
Qed.

Lemma dict_keys_set_absent {V : Type} (k : string) (v : V)
  (d : list (string * V)) :
  dict_get k d = None -> dict_keys (dict_set k v d) = (dict_keys d ++ [k])%list.
Proof.
  intros H. rewrite (dict_set_absent k v d H). unfold dict_keys.
  now rewrite map_app.
Qed.

Lemma keys_distinct_set {V : Type} (k : string) (v : V) (d : list (string * V)) :
  NoDup (dict_keys d) -> NoDup (dict_keys (dict_set k v d)).
Proof.
  intros H. destruct (dict_get k d) as [v0|] eqn:G.
  - rewrite dict_keys_set_present by congruence. assumption.
  - rewrite (dict_keys_set_absent k v d G).
    apply NoDup_app; [assumption | repeat constructor; tauto |].
    intros x Hx [E|[]]. subst x. now apply (proj1 (dict_get_None k d)) in G.
Qed.

Lemma keys_distinct_del {V : Type} (k : string) (d : list (string * V)) :
  NoDup (dict_keys d) -> NoDup (dict_keys (dict_del k d)).
Proof.
  induction d as [|[k' v'] d IH]; cbn; [trivial|].
  intros H. inversion H as [|? ? Hk Hd]; subst.
  destruct (String.eqb_spec k' k) as [->|E]; [assumption|].
  cbn. constructor; [|now apply IH].
  intros Hin. apply Hk. now apply (dict_keys_del_incl k).
Qed.

Lemma Forall_dict_set {V : Type} (P : string * V -> Prop) (k : string) (v : V)
  (d : list (string * V)) :
  Forall P d -> P (k, v) -> Forall P (dict_set k v d).
Proof.
  intros Hd Hk. induction d as [|[k' v'] d IH]; cbn.
  - now constructor.
  - inversion Hd; subst.
    destruct (String.eqb k' k); constructor; auto.
Qed.

Lemma Forall_dict_del {V : Type} (P : string * V -> Prop) (k : string)
  (d : list (string * V)) :
  Forall P d -> Forall P (dict_del k d).
Proof.
  intros Hd. induction d as [|[k' v'] d IH]; cbn; [constructor|].
  inversion Hd; subst.
  destruct (String.eqb k' k); [assumption|]. constructor; auto.
Qed.

Lemma delete_record_del (n : string) (book : AddressBook) :
  delete_record n book = dict_del n book.
Proof.
  unfold delete_record. destruct (dict_get n book) eqn:G; [reflexivity|].
  now rewrite dict_del_absent.
Qed.

Section WithNormalizer.

Variable normalize_phone : string -> result string.

Lemma book_ok_set (n : string) (r : Record_) (book : AddressBook) :
  Inv.book_ok normalize_phone book ->
  Inv.record_ok normalize_phone r ->
  n = value (name r) ->
  Inv.book_ok normalize_phone (dict_set n r book).
Proof.
  intros (Hk & Hn & Hr) Hrec E. split; [|split].
  - now apply keys_distinct_set.
  - now apply Forall_dict_set.
  - now apply Forall_dict_set.
Qed.

Lemma book_ok_del (n : string) (book : AddressBook) :
  Inv.book_ok normalize_phone book ->
  Inv.book_ok normalize_phone (dict_del n book).
Proof.
  intros (Hk & Hn & Hr). split; [|split].
  - now apply keys_distinct_del.
  - now apply Forall_dict_del.
  - now apply Forall_dict_del.
Qed.

Lemma book_ok_get (n : string) (r : Record_) (book : AddressBook) :
  Inv.book_ok normalize_phone book ->
  dict_get n book = Some r ->
  n = value (name r) /\ Inv.record_ok normalize_phone r.
Proof.
  intros (_ & Hn & Hr) G. apply dict_get_In in G.
  unfold Inv.keyed_by_name in Hn. rewrite Forall_forall in Hn, Hr.
  split; [exact (Hn _ G) | exact (Hr _ G)].
Qed.

(** X12: [add_record] and [delete_record] keep the address book in
    order: keys stay distinct, every record stays filed under its own
    name, and a book of records with real birthdays and normalized phones
    stays one, whatever is added (in order itself) or deleted. *)
Theorem address_book_methods_keep_order (r : Record_) (n : string)
  (book : AddressBook) :
  Inv.book_ok normalize_phone book ->
  (Inv.record_ok normalize_phone r ->
   exists book' : AddressBook,
     add_record r book = Ok book' /\ Inv.book_ok normalize_phone book')
  /\ Inv.book_ok normalize_phone (delete_record n book).
Proof.
  intros H. split.
  - intros Hr. eexists. split; [reflexivity|]. now apply book_ok_set.
  - rewrite delete_record_del. now apply book_ok_del.
Qed.

End WithNormalizer.

(** X10: after [delete_record(name)], [find(name)] is [None] and every
    other name finds what it found before; deleting a name that is not
    there is not an error and changes nothing. *)
Theorem delete_record_then_find (n : string) (book : AddressBook) :
  Inv.keys_distinct book ->
  find n (delete_record n book) = None
  /\ (forall k : string, k <> n -> find k (delete_record n book) = find k book)
  /\ (find n book = None -> delete_record n book = book).
Proof.
  intros H. rewrite delete_record_del. unfold find. split; [|split].
  - now apply dict_get_del_same.
  - intros k Hk. now apply dict_get_del_other.
  - apply dict_del_absent.
Qed.

(** X11: adding a record under a name the book does not have puts it
    last, and deleting that name again gives the book back. *)
Theorem add_record_then_delete_record (r : Record_) (book : AddressBook) :
  find (value (name r)) book = None ->
  exists book' : AddressBook,
    add_record r book = Ok book'
    /\ book' = (book ++ [(value (name r), r)])%list
    /\ delete_record (value (name r)) book' = book.
Proof.
  intros H. unfold find in H. eexists. split; [reflexivity|]. split.
  - now apply dict_set_absent.
  - rewrite delete_record_del. now apply dict_del_set_absent.
Qed.

End MoreBook.

(** ** The commands of cli_bot.py *)
Section CommandsOnRecords.
Import Datetime Classes Cli Commands.

Variable normalize_phone : string -> result string.

(** [Record.add_birthday] keeps a record in order. *)
Lemma add_birthday_record_ok (v : string) (r : Record_) :
  Inv.record_ok normalize_phone r ->
  (exists (out : list string) (r' : Record_),
     Classes.add_birthday v r = (out, Ok r')
     /\ Inv.record_ok normalize_phone r' /\ name r' = name r)
  \/ exists msg : string,
       Classes.add_birthday v r = ([], Raise (OverflowError msg)).
Proof.
  intros [Hb Hp]. unfold Classes.add_birthday.
  destruct (Birthday_init_cases v) as [(b & -> & Hv & _)|[->|(msg & ->)]].
  - left. exists [], (set_birthday r (Some b)).
    split; [reflexivity|]. split; [|reflexivity].
    split; [exact Hv | exact Hp].
  - left. exists [invalid_date_format], r. repeat split; assumption.
  - right. now exists msg.
Qed.

(** The three ways [fill_record] can go. *)
Lemma fill_record_cases (phone : string) (b : option string) (record : Record_) :
  (exists e, add_phone normalize_phone phone record = Raise e
             /\ fill_record normalize_phone phone b record
                = (record, [], Raise e))
  \/ (exists record1 record2 out,
        add_phone normalize_phone phone record = Ok record1
        /\ fill_record normalize_phone phone b record = (record2, out, Ok tt)
        /\ name record2 = name record1
        /\ phones record2 = phones record1
        /\ (Inv.birthday_ok record1 -> Inv.birthday_ok record2)
        /\ (b = None -> record2 = record1 /\ out = []))
  \/ (exists record1 msg,
        add_phone normalize_phone phone record = Ok record1
        /\ fill_record normalize_phone phone b record
           = (record1, [], Raise (OverflowError msg))).
Proof.
  unfold fill_record.
  destruct (add_phone normalize_phone phone record) as [record1|e] eqn:A.
  - destruct b as [[|c s]|].
    + right. left. exists record1, record1, []. repeat split; auto; discriminate.
    + unfold Classes.add_birthday.
      destruct (Birthday_init_cases (String c s))
        as [(bd & -> & Hv & _)|[->|(msg & ->)]].
      * right. left. exists record1, (set_birthday record1 (Some bd)), [].
        repeat split; auto; discriminate.
      * right. left. exists record1, record1, [invalid_date_format].
        repeat split; auto; discriminate.
      * right. right. now exists record1, msg.
    + right. left. exists record1, record1, []. repeat split; auto.
  - left. now exists e.
Qed.

Lemma fill_record_ok (phone : string) (b : option string) (record : Record_) :
  Inv.record_ok normalize_phone record ->
  Inv.record_ok normalize_phone
    (fst (fst (fill_record normalize_phone phone b record)))
  /\ name (fst (fst (fill_record normalize_phone phone b record))) = name record.
Proof.
  intros [Hb Hp].
  destruct (fill_record_cases phone b record)
    as [(e & _ & ->)|[(r1 & r2 & out & A & -> & Hn & Hph & Hbok & _)
                     |(r1 & msg & A & ->)]];
    cbn [fst].
  - repeat split; assumption.
  - destruct (add_phone_normalized normalize_phone phone record r1 Hp A)
      as (Hp1 & Hn1 & Hb1).
    split; [split|].
    + apply Hbok. unfold Inv.birthday_ok. now rewrite Hb1.
    + unfold Inv.phones_normalized. now rewrite Hph.
    + congruence.
  - destruct (add_phone_normalized normalize_phone phone record r1 Hp A)
      as (Hp1 & Hn1 & Hb1).
    split; [split|]; [unfold Inv.birthday_ok; now rewrite Hb1 | assumption
                     | assumption].
Qed.

(** X13: when [add_contact] answers with the text of an error, it has
    changed nothing in the address book and printed nothing. *)
Theorem add_contact_error_changes_nothing
  (n phone msg : string) (b : option string) (book book' : AddressBook)
  (out : list string) :
  add_contact normalize_phone n book phone b = (book', out, Ok (Some msg)) ->
  book' = book /\ out = [].
Proof.
  unfold add_contact, add_contact_body.
  destruct (find n book) as [record|] eqn:F.
  - destruct (fill_record_cases phone b record)
      as [(e & _ & ->)|[(r1 & r2 & o & _ & -> & _)|(r1 & m & _ & ->)]].
    + destruct e; cbn; intros E; injection E as <- <- ?;
        (split; [now apply dict_set_same | reflexivity]).
    + cbn. discriminate.
    + cbn. discriminate.
  - destruct (fill_record_cases phone b (mkRecord (Name_init n) [] None))
      as [(e & _ & ->)|[(r1 & r2 & o & _ & -> & _)|(r1 & m & _ & ->)]].
    + destruct e; cbn; intros E; injection E as <- <- ?; now split.
    + cbn. discriminate.
    + cbn. discriminate.
Qed.

(** X14: [add_contact] with a number the normalizer accepts, for a name
    that is new or whose record does not hold that very text: the call
    prints one line and returns [None]; [find] then gives a record under
    that name whose phones are the old ones followed by the normalized
    number; every other name finds what it found before. *)
Theorem add_contact_then_find (n phone v : string) (book : AddressBook) :
  normalize_phone phone = Ok v ->
  (forall r : Record_, find n book = Some r -> ~ In phone (phone_values r)) ->
  exists (book' : AddressBook) (line : string) (r' : Record_),
    add_contact normalize_phone n book phone None = (book', [line], Ok None)
    /\ find n book' = Some r'
    /\ phone_values r'
       = (match find n book with
          | Some r => phone_values r
          | None => []
          end ++ [v])%list
    /\ forall k : string, k <> n -> find k book' = find k book.
Proof.
  intros Hn Hfresh. unfold add_contact, add_contact_body, fill_record.
  destruct (find n book) as [record|] eqn:F.
  - assert (Hx : str_in phone (phone_values record) = false).
    { destruct (str_in phone (phone_values record)) eqn:E; [|reflexivity].
      apply str_in_In in E. now apply Hfresh in E. }
    rewrite (add_phone_fresh normalize_phone phone v record Hn Hx).
    cbn. eexists. eexists. eexists. split; [reflexivity|].
    unfold find. split; [apply dict_get_set_same|]. split.
    + rewrite phone_values_set_phones, map_app. reflexivity.
    + intros k Hk. now apply dict_get_set_other.
  - rewrite (add_phone_fresh normalize_phone phone v
               (mkRecord (Name_init n) [] None) Hn eq_refl).
    cbn. eexists. eexists. eexists. split; [reflexivity|].
    unfold find. split; [apply dict_get_set_same|]. split; [reflexivity|].
    intros k Hk. now apply dict_get_set_other.
Qed.

(** X15: [change_contact] answers "Contact ... not found." for a name
    that is not in the book, and the text for an invalid command (the
    [IndexError] of [record.phones[0]]) for a contact without phones; in
    both cases the book stays as it is and nothing is printed. *)
Theorem change_contact_errors (n new : string) (book : AddressBook) :
  (find n book = None ->
   change_contact normalize_phone n new book
   = (book, [], Ok (Some (contact_not_found n))))
  /\ (forall (r : Record_) (v : string),
        find n book = Some r -> normalize_phone new = Ok v -> phones r = [] ->
        change_contact normalize_phone n new book
        = (book, [], Ok (Some invalid_command))).
Proof.
  unfold find, change_contact, change_contact_body. split.
  - intros ->. reflexivity.
  - intros r v -> -> ->. reflexivity.
Qed.

(** X16: [change_contact] replaces the first phone of the contact, and
    only that one, by the normalized new number, provided the normalizer
    leaves normalized numbers as they are (it is applied again to the
    stored first phone and to the normalized new number). *)
Theorem change_contact_replaces_first
  (n new v : string) (book : AddressBook) (r : Record_)
  (first : Phone) (rest : list Phone) :
  find n book = Some r ->
  phones r = first :: rest ->
  normalize_phone new = Ok v ->
  normalize_phone v = Ok v ->
  normalize_phone (value first) = Ok (value first) ->
  exists (book' : AddressBook) (line : string),
    change_contact normalize_phone n new book = (book', [line], Ok None)
    /\ find n book'
       = Some (set_phones r (mkField (field_name first) v :: rest))
    /\ forall k : string, k <> n -> find k book' = find k book.
Proof.
  unfold find, change_contact, change_contact_body, edit_phone.
  intros -> Hp -> Hv Hf. rewrite Hp. cbn [edit_phone_loop].
  rewrite Hf. cbn [bind]. rewrite String.eqb_refl, Hv. cbn.
  eexists. eexists. split; [reflexivity|].
  split; [apply dict_get_set_same|].
  intros k Hk. now apply dict_get_set_other.
Qed.

(** X17: [delete_contact] answers "Contact ... not found." and changes
    nothing for a name that is not in the book; for a name that is, it
    prints one line, and afterwards [find] gives [None] for that name and
    what it gave before for every other. *)
Theorem delete_contact_then_find (n : string) (book : AddressBook) :
  Inv.keys_distinct book ->
  (find n book = None ->
   delete_contact n book = (book, [], Ok (Some (contact_not_found n))))
  /\ (find n book <> None ->
      exists book' : AddressBook,
        delete_contact n book
        = (book', ["Contact " ++ n ++ " deleted."], Ok None)
        /\ find n book' = None
        /\ forall k : string, k <> n -> find k book' = find k book).
Proof.
  intros H. unfold delete_contact, delete_contact_body. split.
  - intros ->. reflexivity.
  - intros F. destruct (find n book) eqn:E; [|congruence].
    cbn. eexists. split; [reflexivity|].
    rewrite delete_record_del. unfold find. split.
    + now apply dict_get_del_same.
    + intros k Hk. now apply dict_get_del_other.
Qed.

(** X19: the command [add_birthday] prints "Birthday for contact ...
    added" and returns [None] also when the date was rejected: the
    message of the rejection is printed before it and the book is left as
    it was; with a date that is accepted, the record gets it. *)
Theorem add_birthday_command_reports_added
  (n b : string) (book : AddressBook) (r : Record_) :
  find n book = Some r ->
  (Birthday_init b = Raise (ValueError invalid_date_format) ->
   Commands.add_birthday n b book
   = (book,
      [invalid_date_format; "Birthday for contact " ++ n ++ " added: " ++ b],
      Ok None))
  /\ (forall bd : Birthday,
        Birthday_init b = Ok bd ->
        Commands.add_birthday n b book
        = (dict_set n (set_birthday r (Some bd)) book,
           ["Birthday for contact " ++ n ++ " added: " ++ b],
           Ok None)).
Proof.
  intros F.
  unfold Commands.add_birthday, add_birthday_body, Classes.add_birthday.
  rewrite F. split.
  - intros ->. cbn. unfold find in F. now rewrite (dict_set_same n r book F).
  - intros bd ->. reflexivity.
Qed.

End CommandsOnRecords.

Section ReadOnlyCommands.
Import Datetime Classes Cli Commands.

(** X20: the command [birthdays] never lists a birthday.  When the
    scheduler returns its text, the command prints only the heading and
    answers with the error of unpacking one character into three names;
    when the scheduler raises, nothing is printed.  It never returns
    [None], and the line "No upcoming birthdays" is never printed. *)
Theorem birthdays_never_lists (today : date) (book : AddressBook) :
  snd (birthdays today book) <> Ok None
  /\ ~ In "No upcoming birthdays in the next week." (fst (birthdays today book))
  /\ (forallb (Spec.placeable today) (dict_values book) = true ->
      birthdays today book
      = (["Upcoming birthdays in the next week:"],
         Ok (Some "not enough values to unpack (expected 3, got 1)")))
  /\ (forallb (Spec.placeable today) (dict_values book) = false ->
      fst (birthdays today book) = []).
Proof.
  unfold birthdays, birthdays_body, get_upcoming_birthdays, upcoming_birthdays.
  destruct (forallb (Spec.placeable today) (dict_values book)) eqn:P.
  - rewrite (upcoming_loop_placeable _ _ [] P). cbn.
    repeat split; try discriminate. intros [H|[]]. discriminate.
  - destruct (upcoming_loop today (dict_values book) []) as [l|e] eqn:L.
    + apply upcoming_loop_Ok in L. congruence.
    + cbn. repeat split; try discriminate; try tauto.
      destruct e; cbn; discriminate.
Qed.

End ReadOnlyCommands.

(** ** Showing the address book *)
Section Showing.
Import Classes Cli Commands.

Lemma insert_by_name_perm (x : Record_) (l : list Record_) :
  Permutation (insert_by_name x l) (x :: l).
Proof.
  induction l as [|y l IH]; cbn; [reflexivity|].
  destruct (str_le (value (name x)) (value (name y))); [reflexivity|].
  rewrite IH. apply perm_swap.
Qed.

Lemma sort_by_name_perm (l : list Record_) : Permutation (sort_by_name l) l.
Proof.
  induction l as [|x l IH]; cbn; [reflexivity|].
  rewrite insert_by_name_perm. now constructor.
Qed.

Lemma insert_by_name_sorted (x : Record_) (l : list Record_) :
  Sorted Inv.name_le l -> Sorted Inv.name_le (insert_by_name x l).
Proof.
  induction l as [|y l IH]; intros H; cbn.
  - repeat constructor.
  - destruct (str_le (value (name x)) (value (name y))) eqn:E.
    + constructor; [assumption|]. now constructor.
    + inversion H as [|? ? Hs Hh]; subst.
      assert (Hyx : Inv.name_le y x).
      { unfold Inv.name_le, str_le in *.
        destruct (String.leb_total (value (name x)) (value (name y)));
          congruence. }
      constructor; [now apply IH|].
      destruct l as [|z l]; cbn.
      * now constructor.
      * destruct (str_le (value (name x)) (value (name z))).
        -- now constructor.
        -- inversion Hh; subst. now constructor.
Qed.

Lemma sort_by_name_sorted (l : list Record_) :
  Sorted Inv.name_le (sort_by_name l).
Proof.
  induction l as [|x l IH]; cbn; [constructor|].
  now apply insert_by_name_sorted.
Qed.

(** X18: [show_phonebook] never fails and prints one line per contact:
    in the order of the address book when [sorted_] is false (as [main]
    calls it), and otherwise the same contacts rearranged so that the
    names never decrease from one line to the next. *)
Theorem show_phonebook_lines (book : AddressBook) (sorted_ : bool) :
  exists records : list Record_,
    show_phonebook book sorted_ = (map Record_str records, Ok None)
    /\ Permutation records (dict_values book)
    /\ (sorted_ = false -> records = dict_values book)
    /\ (sorted_ = true -> Sorted Inv.name_le records).
Proof.
  unfold show_phonebook, show_phonebook_body. destruct sorted_.
  - exists (sort_by_name (dict_values book)).
    split; [reflexivity|]. split; [apply sort_by_name_perm|].
    split; [discriminate|]. intros _. apply sort_by_name_sorted.
  - exists (dict_values book).
    split; [reflexivity|]. split; [reflexivity|].
    split; [reflexivity | discriminate].
Qed.

End Showing.

(** ** The command loop *)
Section Loop.
Import Datetime Classes Cli Commands.

Variable normalize_phone : string -> result string.

Lemma lstrip_all_blank (s : string) :
  all_blank s = true -> PyStr.lstrip s = "".
Proof.
  induction s as [|c s IH]; cbn; [reflexivity|].
  intros H. apply andb_true_iff in H. destruct H as [-> H]. now apply IH.
Qed.

(** X21: a line that is empty or made of blanks only ends the session
    with an [IndexError]: [command[0]] is evaluated outside every [try].
    The address book is as it was and the lines after it are not read. *)
Theorem main_loop_blank_line_crashes
  (today : date) (line : string) (rest : list string) (book : AddressBook) :
  all_blank line = true ->
  main_loop normalize_phone today (line :: rest) book
  = (book, [], Crashed (IndexError "list index out of range")).
Proof.
  intros H. cbn [main_loop]. unfold strip.
  now rewrite (lstrip_all_blank line H).
Qed.

Ltac split_command cmd word :=
  destruct (String.eqb_spec cmd word); [congruence|].

(** X23: of the commands, only [add], [change], [delete] and
    [add-birthday] can change the address book: whatever the others are
    given, the book after the call is the book before it. *)
Theorem other_commands_keep_the_book
  (today : date) (cmd : string) (args : list string)
  (book book' : AddressBook) (out : list string) (res : result unit) :
  cmd <> "add" -> cmd <> "change" -> cmd <> "delete" ->
  cmd <> "add-birthday" ->
  run_command normalize_phone today cmd args book = Some (book', out, res) ->
  book' = book.
Proof.
  intros H1 H2 H3 H4. unfold run_command.
  destruct (String.eqb cmd "hello"); [congruence|].
  split_command cmd "add". split_command cmd "change".
  split_command cmd "delete".
  destruct (String.eqb cmd "search" || String.eqb cmd "phone").
  { destruct (arg 0 args); [|congruence].
    destruct (search_contact PyStr.lower a book). congruence. }
  destruct (String.eqb cmd "show" || String.eqb cmd "all").
  { destruct (show_phonebook book false). congruence. }
  split_command cmd "add-birthday".
  destruct (String.eqb cmd "show-birthday").
  { destruct (arg 0 args); [|congruence].
    destruct (show_birthday a book). congruence. }
  destruct (String.eqb cmd "birthdays"); [|discriminate].
  destruct (birthdays today book). congruence.
Qed.


(** X25: a command that is given too few words raises [IndexError] when
    its arguments are taken, before the command itself is entered: the
    book is not touched, and [main] prints the error. *)
Theorem missing_arguments_raise_IndexError
  (today : date) (args : list string) (book : AddressBook) :
  let failed :=
    Some (book, @nil string, @Raise unit (IndexError "list index out of range")) in
  ((List.length args < 2)%nat ->
   run_command normalize_phone today "add" args book = failed
   /\ run_command normalize_phone today "change" args book = failed
   /\ run_command normalize_phone today "add-birthday" args book = failed)
  /\ (args = [] ->
      run_command normalize_phone today "delete" args book = failed
      /\ run_command normalize_phone today "search" args book = failed
      /\ run_command normalize_phone today "phone" args book = failed
      /\ run_command normalize_phone today "show-birthday" args book = failed).
Proof.
  cbv zeta. split.
  - intros H. destruct args as [|a [|b args]]; cbn in H; try lia;
      repeat split; reflexivity.
  - intros ->. repeat split; reflexivity.
Qed.

(** Each command that writes keeps the address book in order. *)
Lemma add_contact_body_ok (n phone : string) (b : option string)
  (book : AddressBook) :
  Inv.book_ok normalize_phone book ->
  Inv.book_ok normalize_phone
    (fst (fst (add_contact_body normalize_phone n book phone b))).
Proof.
  intros H. unfold add_contact_body.
  destruct (find n book) as [record|] eqn:F.
  - destruct (book_ok_get normalize_phone n record book H F) as [Hn Hr].
    destruct (fill_record_ok normalize_phone phone b record Hr) as [Hr' Hn'].
    destruct (fill_record normalize_phone phone b record) as [[record' out] res].
    cbn [fst] in *. apply book_ok_set; [assumption | assumption | congruence].
  - assert (Hr : Inv.record_ok normalize_phone (mkRecord (Name_init n) [] None)).
    { split; [exact I | constructor]. }
    destruct (fill_record_ok normalize_phone phone b _ Hr) as [Hr' Hn'].
    destruct (fill_record normalize_phone phone b _) as [[record' out] res].
    cbn [fst] in *. destruct res; cbn [fst]; [|assumption].
    now apply book_ok_set.
Qed.

Lemma change_contact_body_ok (n new : string) (book : AddressBook) :
  Inv.book_ok normalize_phone book ->
  Inv.book_ok normalize_phone
    (fst (fst (change_contact_body normalize_phone n new book))).
Proof.
  intros H. unfold change_contact_body.
  destruct (dict_get n book) as [record|] eqn:F; [|assumption].
  destruct (normalize_phone new) as [v|]; [|assumption].
  destruct (phones record) as [|first rest] eqn:P; [assumption|].
  destruct (edit_phone normalize_phone (value first) v record)
    as [[record' m]|] eqn:E; [|assumption].
  cbn [fst].
  destruct (book_ok_get normalize_phone n record book H F) as [Hn [Hb Hp]].
  destruct (edit_phone_normalized normalize_phone _ _ _ _ _ Hp E)
    as (Hp' & Hn' & Hb').
  apply book_ok_set; [assumption | | congruence].
  split; [unfold Inv.birthday_ok; now rewrite Hb' | assumption].
Qed.

Lemma delete_contact_body_ok (n : string) (book : AddressBook) :
  Inv.book_ok normalize_phone book ->
  Inv.book_ok normalize_phone (fst (fst (delete_contact_body n book))).
Proof.
  intros H. unfold delete_contact_body.
  destruct (find n book); [|assumption].
  cbn [fst]. rewrite delete_record_del. now apply book_ok_del.
Qed.

Lemma add_birthday_body_ok (n b : string) (book : AddressBook) :
  Inv.book_ok normalize_phone book ->
  Inv.book_ok normalize_phone (fst (fst (add_birthday_body n b book))).
Proof.
  intros H. unfold add_birthday_body.
  destruct (find n book) as [record|] eqn:F; [|assumption].
  destruct (book_ok_get normalize_phone n record book H F) as [Hn Hr].
  destruct (add_birthday_record_ok normalize_phone b record Hr)
    as [(out & r' & -> & Hr' & Hn')|(msg & ->)]; cbn [fst]; [|assumption].
  apply book_ok_set; [assumption | assumption | congruence].
Qed.

Lemma run_command_ok (today : date) (cmd : string) (args : list string)
  (book book' : AddressBook) (out : list string) (res : result unit) :
  Inv.book_ok normalize_phone book ->
  run_command normalize_phone today cmd args book = Some (book', out, res) ->
  Inv.book_ok normalize_phone book'.
Proof.
  intros H. unfold run_command.
  destruct (String.eqb cmd "hello"); [congruence|].
  destruct (String.eqb cmd "add").
  { destruct (arg 0 args) as [a0|]; [|congruence].
    destruct (arg 1 args) as [a1|]; [|congruence].
    pose proof (add_contact_body_ok a0 a1 None book H) as B.
    unfold add_contact.
    destruct (add_contact_body normalize_phone a0 book a1 None) as [[b o] r].
    cbn [fst] in B. intros E. now injection E as <- _ _. }
  destruct (String.eqb cmd "change").
  { destruct (arg 0 args) as [a0|]; [|congruence].
    destruct (arg 1 args) as [a1|]; [|congruence].
    pose proof (change_contact_body_ok a0 a1 book H) as B.
    unfold change_contact.
    destruct (change_contact_body normalize_phone a0 a1 book) as [[b o] r].
    cbn [fst] in B. intros E. now injection E as <- _ _. }
  destruct (String.eqb cmd "delete").
  { destruct (arg 0 args) as [a0|]; [|congruence].
    pose proof (delete_contact_body_ok a0 book H) as B.
    unfold delete_contact.
    destruct (delete_contact_body a0 book) as [[b o] r].
    cbn [fst] in B. intros E. now injection E as <- _ _. }
  destruct (String.eqb cmd "search" || String.eqb cmd "phone").
  { destruct (arg 0 args); [|congruence].
    destruct (search_contact PyStr.lower a book). congruence. }
  destruct (String.eqb cmd "show" || String.eqb cmd "all").
  { destruct (show_phonebook book false). congruence. }
  destruct (String.eqb cmd "add-birthday").
  { destruct (arg 0 args) as [a0|]; [|congruence].
    destruct (arg 1 args) as [a1|]; [|congruence].
    pose proof (add_birthday_body_ok a0 a1 book H) as B.
    unfold Commands.add_birthday.
    destruct (add_birthday_body a0 a1 book) as [[b o] r].
    cbn [fst] in B. intros E. now injection E as <- _ _. }
  destruct (String.eqb cmd "show-birthday").
  { destruct (arg 0 args); [|congruence].
    destruct (show_birthday a book). congruence. }
  destruct (String.eqb cmd "birthdays"); [|discriminate].
  destruct (birthdays today book). congruence.
Qed.

(** X22: whatever is typed, the session keeps the address book in order:
    if it starts with distinct keys, every record filed under its own
    name, every birthday a date of the calendar and every phone a value
    of the normalizer, then so is the address book when the session
    ends, however it ends. *)
Theorem main_keeps_the_book_in_order
  (today : date) (inputs : list string) (book : AddressBook) :
  Inv.book_ok normalize_phone book ->
  Inv.book_ok normalize_phone
    (fst (fst (main normalize_phone today book inputs))).
Proof.
  unfold main.
  assert (L : forall inputs book,
             Inv.book_ok normalize_phone book ->
             Inv.book_ok normalize_phone
               (fst (fst (main_loop normalize_phone today inputs book)))).
  { clear. induction inputs as [|line rest IH]; intros book H; cbn [main_loop].
    - exact H.
    - destruct (split_blank (strip line)) as [|c args]; [exact H|].
      destruct (String.eqb (PyStr.lower c) "close"
                || String.eqb (PyStr.lower c) "exit"); [exact H|].
      destruct (run_command normalize_phone today (PyStr.lower c) args book)
        as [[[book1 out] res]|] eqn:R.
      + pose proof (run_command_ok _ _ _ _ _ _ _ H R) as H1.
        specialize (IH book1 H1).
        destruct (main_loop normalize_phone today rest book1) as [[b o] e].
        exact IH.
      + specialize (IH book H).
        destruct (main_loop normalize_phone today rest book) as [[b o] e].
        exact IH. }
  intros H. specialize (L inputs book H).
  destruct (main_loop normalize_phone today inputs book) as [[b o] e].
  exact L.
Qed.

End Loop.

(** ** The properties on concrete records and books *)
Section PropertyRuns.
Import Datetime Classes Cli Commands Runs.


Lemma sample_book_in_order :
  Inv.book_ok Sample.normalize_phone (book_of [ann; bob]).
Proof.
  split; [|split].
  - repeat constructor; cbn; intuition discriminate.
  - repeat constructor.
  - repeat constructor; cbn.
    + now exists "+380501234567".
    + now exists "+380671112233".
Qed.

(** Editing a number on a record that has none. *)
Lemma edit_phone_not_stored_witness :
  edit_phone Sample.normalize_phone raw_ann "no number" nobody
  = Ok (nobody, None).
Proof.
  apply (edit_phone_not_stored Sample.normalize_phone raw_ann "no number"
           "+380501234567" nobody).
  - reflexivity.
  - cbn. tauto.
Defined.

(** The first of two numbers edited into a third. *)
Lemma edit_phone_then_search_phone_witness :
  exists (r' : Record_) (msg : string),
    edit_phone Sample.normalize_phone raw_ann "+38 (099) 111-22-33" two_phones
    = Ok (r', Some msg)
    /\ name r' = name two_phones /\ birthday r' = birthday two_phones
    /\ List.length (phones r') = 2%nat
    /\ (exists p : Phone,
          search_phone Sample.normalize_phone "+38 (099) 111-22-33" r'
          = Ok (Some p)
          /\ value p = "+380991112233")
    /\ (NoDup (phone_values two_phones) ->
        "+380501234567" <> "+380991112233" ->
        search_phone Sample.normalize_phone raw_ann r' = Ok None).
Proof.
  apply (edit_phone_then_search_phone Sample.normalize_phone
           raw_ann "+38 (099) 111-22-33" "+380501234567" "+380991112233"
           two_phones).
  - reflexivity.
  - reflexivity.
  - cbn. tauto.
Defined.

(** The first of two numbers deleted. *)
Lemma delete_phone_removes_first_witness :
  exists (l1 l2 : list string) (r' : Record_),
    phone_values two_phones = (l1 ++ "+380501234567" :: l2)%list
    /\ ~ In "+380501234567" l1
    /\ delete_phone Sample.normalize_phone raw_ann two_phones
       = Ok (r', Some ("Phone " ++ raw_ann ++ " deleted"))
    /\ phone_values r' = (l1 ++ l2)%list
    /\ name r' = name two_phones /\ birthday r' = birthday two_phones
    /\ (NoDup (phone_values two_phones) ->
        search_phone Sample.normalize_phone raw_ann r' = Ok None).
Proof.
  apply (proj1 (delete_phone_removes_first Sample.normalize_phone raw_ann
                  "+380501234567" two_phones eq_refl)).
  cbn. tauto.
Defined.

(** A number added to a record without phones and deleted again. *)
Lemma add_phone_delete_phone_witness :
  exists r1 : Record_,
    add_phone Sample.normalize_phone raw_ann nobody = Ok r1
    /\ delete_phone Sample.normalize_phone raw_ann r1
       = Ok (nobody, Some ("Phone " ++ raw_ann ++ " deleted")).
Proof.
  apply (add_phone_delete_phone Sample.normalize_phone raw_ann
           "+380501234567" nobody).
  - reflexivity.
  - cbn. tauto.
  - cbn. tauto.
Defined.


(** A date that does not exist, on a record that has a birthday. *)
Lemma add_birthday_keeps_calendar_dates_witness :
  (exists (out : list string) (r' : Record_),
     Classes.add_birthday "29.02.2021" ann = (out, Ok r')
     /\ Inv.birthday_ok r'
     /\ name r' = name ann /\ phones r' = phones ann)
  \/ exists msg : string,
       Classes.add_birthday "29.02.2021" ann = ([], Raise (OverflowError msg)).
Proof.
  apply (add_birthday_keeps_calendar_dates "29.02.2021" ann).
  reflexivity.
Defined.

(** The scenario of Monday 2024-06-10 with two contacts. *)
Lemma upcoming_entries_on_working_days_witness :
  (List.length [("Ann", mkdate 2024 6 15, mkdate 2024 6 17)] <= 2)%nat
  /\ forall (n : string) (b c : date),
       In (n, b, c) [("Ann", mkdate 2024 6 15, mkdate 2024 6 17)] ->
       year b = 2024
       /\ valid_date c = true
       /\ 0 <= toordinal c - toordinal june10 <= 7
       /\ 0 <= toordinal c - toordinal b <= 2
       /\ 0 <= weekday c <= 4
       /\ exists r : Record_,
            In r (dict_values (book_of [ann; eve])) /\ value (name r) = n.
Proof.
  exact (upcoming_entries_on_working_days june10 (book_of [ann; eve])
           [("Ann", mkdate 2024 6 15, mkdate 2024 6 17)] eq_refl).
Defined.

Lemma ann_eve_keys_distinct : Inv.keys_distinct (book_of [ann; eve]).
Proof. repeat constructor; cbn; intuition discriminate. Qed.

(** Ann deleted from the book of Ann and Eve. *)
Lemma delete_record_then_find_witness :
  find "Ann" (delete_record "Ann" (book_of [ann; eve])) = None
  /\ (forall k : string,
        k <> "Ann" ->
        find k (delete_record "Ann" (book_of [ann; eve]))
        = find k (book_of [ann; eve]))
  /\ (find "Ann" (book_of [ann; eve]) = None ->
      delete_record "Ann" (book_of [ann; eve]) = book_of [ann; eve]).
Proof.
  exact (delete_record_then_find "Ann" (book_of [ann; eve])
           ann_eve_keys_distinct).
Defined.

(** Bob added to the book of Ann and Eve and deleted again. *)
Lemma add_record_then_delete_record_witness :
  exists book' : AddressBook,
    add_record bob (book_of [ann; eve]) = Ok book'
    /\ book' = book_of [ann; eve; bob]
    /\ delete_record "Bob" book' = book_of [ann; eve].
Proof.
  exact (add_record_then_delete_record bob (book_of [ann; eve]) eq_refl).
Defined.

(** Eve added to, and Ann deleted from, the book of Ann and Bob. *)
Lemma address_book_methods_keep_order_witness :
  (Inv.record_ok Sample.normalize_phone eve ->
   exists book' : AddressBook,
     add_record eve (book_of [ann; bob]) = Ok book'
     /\ Inv.book_ok Sample.normalize_phone book')
  /\ Inv.book_ok Sample.normalize_phone
       (delete_record "Ann" (book_of [ann; bob])).
Proof.
  exact (address_book_methods_keep_order Sample.normalize_phone eve "Ann"
           (book_of [ann; bob]) sample_book_in_order).
Defined.

(** A number that is no number, for a contact that exists. *)
Lemma add_contact_error_changes_nothing_witness :
  add_contact Sample.normalize_phone "Ann" (book_of [ann; bob]) "abc" None
  = (book_of [ann; bob], [], Ok (Some "Invalid phone number"))
  /\ book_of [ann; bob] = book_of [ann; bob] /\ @nil string = [].
Proof.
  split; [reflexivity|].
  exact (add_contact_error_changes_nothing Sample.normalize_phone
           "Ann" "abc" "Invalid phone number" None (book_of [ann; bob])
           (book_of [ann; bob]) [] eq_refl).
Defined.

(** A second number for Ann. *)
Lemma add_contact_then_find_witness :
  exists (book' : AddressBook) (line : string) (r' : Record_),
    add_contact Sample.normalize_phone "Ann" (book_of [ann; bob])
      "+38 (099) 111-22-33" None = (book', [line], Ok None)
    /\ find "Ann" book' = Some r'
    /\ phone_values r' = ["+380501234567"; "+380991112233"]
    /\ forall k : string,
         k <> "Ann" -> find k book' = find k (book_of [ann; bob]).
Proof.
  apply (add_contact_then_find Sample.normalize_phone "Ann"
           "+38 (099) 111-22-33" "+380991112233" (book_of [ann; bob])).
  - reflexivity.
  - intros r E. injection E as <-. cbn. intuition discriminate.
Defined.

(** Ann's first number changed. *)
Lemma change_contact_replaces_first_witness :
  exists (book' : AddressBook) (line : string),
    change_contact Sample.normalize_phone "Ann" "+38 (099) 111-22-33"
      (book_of [ann; bob]) = (book', [line], Ok None)
    /\ find "Ann" book'
       = Some (set_phones ann [phone "+380991112233"])
    /\ forall k : string,
         k <> "Ann" -> find k book' = find k (book_of [ann; bob]).
Proof.
  exact (change_contact_replaces_first Sample.normalize_phone "Ann"
           "+38 (099) 111-22-33" "+380991112233" (book_of [ann; bob]) ann
           (phone "+380501234567") [] eq_refl eq_refl eq_refl eq_refl eq_refl).
Defined.

(** Ann deleted by the command. *)
Lemma delete_contact_then_find_witness :
  exists book' : AddressBook,
    delete_contact "Ann" (book_of [ann; eve])
    = (book', ["Contact Ann deleted."], Ok None)
    /\ find "Ann" book' = None
    /\ forall k : string,
         k <> "Ann" -> find k book' = find k (book_of [ann; eve]).
Proof.
  apply (proj2 (delete_contact_then_find "Ann" (book_of [ann; eve])
                  ann_eve_keys_distinct)).
  discriminate.
Defined.

(** 29 February 2021 for Ann. *)
Lemma add_birthday_command_reports_added_witness :
  Commands.add_birthday "Ann" "29.02.2021" (book_of [ann; bob])
  = (book_of [ann; bob],
     [invalid_date_format; "Birthday for contact Ann added: 29.02.2021"],
     Ok None).
Proof.
  exact (proj1 (add_birthday_command_reports_added "Ann" "29.02.2021"
                  (book_of [ann; bob]) ann eq_refl) eq_refl).
Defined.

(** A line of two blanks, with more lines after it. *)
Lemma main_loop_blank_line_crashes_witness :
  main_loop Sample.normalize_phone june10 ["  "; "hello"] (book_of [ann])
  = (book_of [ann], [], Crashed (IndexError "list index out of range")).
Proof.
  exact (main_loop_blank_line_crashes Sample.normalize_phone june10 "  "
           ["hello"] (book_of [ann]) eq_refl).
Defined.

(** A session that adds, changes, dates and deletes. *)
Lemma main_keeps_the_book_in_order_witness :
  Inv.book_ok Sample.normalize_phone
    (fst (fst (main Sample.normalize_phone june10 (book_of [ann; bob])
                 ["add Eve 0501112233"; "change Ann 0991112233";
                  "add-birthday Bob 01.03.2000"; "delete Ann"; "exit"]))).
Proof.
  exact (main_keeps_the_book_in_order Sample.normalize_phone june10
           ["add Eve 0501112233"; "change Ann 0991112233";
            "add-birthday Bob 01.03.2000"; "delete Ann"; "exit"]
           (book_of [ann; bob]) sample_book_in_order).
Defined.

(** The command [show]. *)
Lemma other_commands_keep_the_book_witness :
  run_command Sample.normalize_phone june10 "show" [] (book_of [ann; bob])
  = Some (book_of [ann; bob],
          ["Contact name: Ann, phones: +380501234567";
           "Contact name: Bob, phones: +380671112233"], Ok tt)
  /\ book_of [ann; bob] = book_of [ann; bob].
Proof.
  split; [reflexivity|].
  apply (other_commands_keep_the_book Sample.normalize_phone june10 "show" []
           (book_of [ann; bob]) (book_of [ann; bob])
           ["Contact name: Ann, phones: +380501234567";
            "Contact name: Bob, phones: +380671112233"] (Ok tt));
    (discriminate || reflexivity).
Defined.

(** A whole session, from an empty address book. *)
Lemma session_from_empty_book :
  main Sample.normalize_phone june10 []
    ["hello"; "add Ann 0501234567"; "add Bob"; "show";
     "change Ann 0991112233"; "search zed"; "phone 099";
     "add-birthday Ann 31.02.1990"; "add-birthday Ann 15.06.1990";
     "show-birthday Ann"; "birthdays"; "delete Bob"; "foo"; "  EXIT now";
     "hello"]
  = ([("Ann",
       mkRecord (Name_init "Ann") [phone "+0991112233"]
         (Some (born (mkdate 1990 6 15))))],
     ["Welcome to the assistant bot!"; "How can I help you?";
      "Contact Ann added with phone number 0501234567";
      "[ERROR] list index out of range";
      "Contact name: Ann, phones: +0501234567";
      "Contact Ann updated." ++ PyStr.nl ++ "New phone: +0991112233";
      "Ann: +0991112233";
      "Invalid date format. Use DD.MM.YYYY";
      "Birthday for contact Ann added: 31.02.1990";
      "Birthday for contact Ann added: 15.06.1990";
      "Birthday for contact Ann: Friday, June 15";
      "Upcoming birthdays in the next week:";
      "Invalid command."; available_commands; "Good bye!"],
     Returned).
Proof. reflexivity. Qed.

(** A session on a book with a contact without a birthday, ended by an
    empty line. *)
Lemma session_with_missing_birthday :
  main Sample.normalize_phone june10 (book_of [bob]) ["birthdays"; ""; "hello"]
  = (book_of [bob],
     ["Welcome to the assistant bot!";
      "[ERROR] 'NoneType' object has no attribute 'value'"],
     Crashed (IndexError "list index out of range")).
Proof. reflexivity. Qed.

End PropertyRuns.
